(** * Variational nodes of MOFA (variational_nodes.py)

    A shallow embedding of the node layer of the variational-inference
    engine: the class hierarchy rooted at [Variational_Node], its method
    tables, Python's method resolution along the inheritance chain, and the
    constructors of the five family-specific unobserved nodes.

    The module is Python 2 source ([from __future__ import division], tabs
    mixed with spaces).  Python 2 expands a tab to the next multiple of
    eight columns, which decides where line 154 of the file belongs; see
    [methods] below. *)

From Stdlib Require Import ZArith QArith.
From stdpp Require Import base option list strings gmap.

Local Open Scope string_scope.
Local Open Scope list_scope.

(** ** Scalars

    The entries of the arrays are Python floats.  The node layer only ever
    multiplies a prior probability by [scipy.ones], so floats are kept
    abstract: a carrier with the constants and the product the code uses.
    [smul_one_r] is the one law of IEEE-754 arithmetic the module relies
    on: [x * 1.0] is [x]. *)
Class Scalar := {
  scalar : Type;
  zero : scalar;
  one : scalar;
  smul : scalar -> scalar -> scalar;
  of_int : Z -> scalar;
  smul_one_r : forall x : scalar, smul x one = x
}.

(** ** Exceptions and results *)

Inductive exn :=
| AttributeError (name : string)
| TypeError
| IndexError
| ValueError
| AssertionError (msg : string)
| RecursionError.

Inductive result (A : Type) :=
| Ok (a : A)
| Raise (e : exn).
Arguments Ok {A} a.
Arguments Raise {A} e.

#[export] Instance result_ret : MRet result := fun A a => Ok a.
#[export] Instance result_bind : MBind result := fun A B f r =>
  match r with
  | Ok a => f a
  | Raise e => Raise e
  end.

#[export] Instance result_fmap : FMap result := fun A B f r =>
  match r with
  | Ok a => Ok (f a)
  | Raise e => Raise e
  end.

(** ** Values *)

(** The values that flow through the node layer: [None], a float, an int,
    and a one-dimensional sequence of floats (a list, a tuple or an
    ndarray of shape [(n,)]). *)
Inductive value `{Scalar} :=
| VNone
| VFloat (x : scalar)
| VInt (z : Z)
| VSeq (xs : list scalar).

(** The five distribution classes of distributions.py. *)
Inductive family :=
| UnivariateGaussian
| MultivariateGaussian
| Gamma
| Bernoulli
| BernoulliGaussian.

(** Modelled from the spec: the Distribution objects of distributions.py,
    which is not among the sources.  A distribution is a bundle of named
    parameters and named moments of one family, with a dimensionality. *)
Record Distribution `{Scalar} := {
  dist_class : family;
  dist_dim : list nat;
  dist_params : gmap string value;
  dist_moments : gmap string value
}.

(** The operations of the Distribution collaborator that the node layer
    calls: the constructor [Family(dim=..., name=value, ...)] and the
    method [updateExpectations()].  Both are taken as parameters; either
    may raise. *)
Class Distributions `{Scalar} := {
  Distribution_init : family -> list nat -> gmap string value -> result Distribution;
  Distribution_updateExpectations : Distribution -> result Distribution
}.

(** What an attribute of a node, or the result of a method, can be. *)
Inductive object `{Scalar} :=
| OVal (v : value)
| OShape (t : list nat)
| ODist (d : Distribution)
| ODict (m : gmap string value).

(** ** Classes and methods *)

Inductive class :=
| Variational_Node
| Observed_Variational_Node
| Unobserved_Variational_Node
| UnivariateGaussian_Unobserved_Variational_Node
| MultivariateGaussian_Unobserved_Variational_Node
| Gamma_Unobserved_Variational_Node
| Bernoulli_Unobserved_Variational_Node
| BernoulliGaussian_Unobserved_Variational_Node.

Inductive meth :=
| calculateELBO
| updateExpectations
| getExpectation
| getExpectations
| updateParameters
| update
| getParameters
| getObservations.

Definition meth_name (m : meth) : string :=
  match m with
  | calculateELBO => "calculateELBO"
  | updateExpectations => "updateExpectations"
  | getExpectation => "getExpectation"
  | getExpectations => "getExpectations"
  | updateParameters => "updateParameters"
  | update => "update"
  | getParameters => "getParameters"
  | getObservations => "getObservations"
  end.

#[export] Instance class_eq_dec : EqDecision class.
Proof. solve_decision. Defined.

#[export] Instance meth_eq_dec : EqDecision meth.
Proof. solve_decision. Defined.

(** The base class named in each [class C(Base)] header.  [Variational_Node]
    derives from [Node] of nodes.py, which defines none of the methods
    below. *)
Definition parent (c : class) : option class :=
  match c with
  | Variational_Node => None
  | Observed_Variational_Node => Some Variational_Node
  | Unobserved_Variational_Node => Some Variational_Node
  | UnivariateGaussian_Unobserved_Variational_Node => Some Unobserved_Variational_Node
  | MultivariateGaussian_Unobserved_Variational_Node => Some Unobserved_Variational_Node
  | Gamma_Unobserved_Variational_Node => Some Unobserved_Variational_Node
  | Bernoulli_Unobserved_Variational_Node => Some Unobserved_Variational_Node
  | BernoulliGaussian_Unobserved_Variational_Node => Some Unobserved_Variational_Node
  end.

(** The class and its ancestors, nearest first, [n] levels up. *)
Fixpoint ancestors (n : nat) (c : class) : list class :=
  c :: match n with
       | O => []
       | S k => match parent c with
                | Some p => ancestors k p
                | None => []
                end
       end.

(** Method resolution order: single inheritance, at most two levels below
    [Variational_Node]. *)
Definition mro (c : class) : list class := ancestors 2 c.

(** ** Node objects and the state of a call *)

(** A node is an instance of one of the classes, with its attribute
    dictionary. *)
Record node `{Scalar} := {
  node_class : class;
  node_attrs : gmap string object
}.

(** Calls are recorded as they happen: entering a method body of a class,
    and the delegated call [self.Q.updateExpectations()] on a
    distribution. *)
Inductive event `{Scalar} :=
| Enter (c : class) (m : meth)
| DistUpdate (d : Distribution).

Record state `{Scalar} := {
  self : node;
  trace : list event
}.

(** Computations on [self] that may raise. *)
Definition M `{Scalar} (A : Type) : Type := state -> result (A * state).

#[export] Instance M_ret `{Scalar} : MRet M := fun A a s => Ok (a, s).
#[export] Instance M_bind `{Scalar} : MBind M := fun A B f c s =>
  match c s with
  | Ok (a, s') => f a s'
  | Raise e => Raise e
  end.

Section Primitives.
Context `{Sc : Scalar}.

Definition raise {A : Type} (e : exn) : M A := fun _ => Raise e.

(** A computation that does not touch [self]. *)
Definition lift {A : Type} (r : result A) : M A := fun s =>
  match r with
  | Ok a => Ok (a, s)
  | Raise e => Raise e
  end.

Definition emit (e : event) : M unit := fun s =>
  Ok (tt, {| self := self s; trace := trace s ++ [e] |}).

(** [self.a]: the instance dictionary is the only place where the data
    attributes of a node live. *)
Definition getattr (a : string) : M object := fun s =>
  match node_attrs (self s) !! a with
  | Some o => Ok (o, s)
  | None => Raise (AttributeError a)
  end.

Definition set_attr (n : node) (a : string) (o : object) : node :=
  {| node_class := node_class n; node_attrs := <[a := o]> (node_attrs n) |}.

(** [self.a = o] *)
Definition setattr (a : string) (o : object) : M unit := fun s =>
  Ok (tt, {| self := set_attr (self s) a o; trace := trace s |}).

(** The named fields of a distribution, parameters and moments alike. *)
Definition dist_fields (d : Distribution) : gmap string value :=
  dist_params d ∪ dist_moments d.

(** [q.a] for the object [q] that [self.Q] holds.  This module stores in
    [Q] either [None] or a Distribution; neither [None] nor a number, a
    tuple, a dict or a list has any of the fields read here. *)
Definition dist_getattr (q : object) (a : string) : M value := fun s =>
  match q with
  | ODist d =>
      match dist_fields d !! a with
      | Some v => Ok (v, s)
      | None => Raise (AttributeError a)
      end
  | _ => Raise (AttributeError a)
  end.

(** [type(v) == float] *)
Definition type_is_float (v : value) : bool :=
  match v with
  | VFloat _ => true
  | _ => false
  end.

(** [len(v)]: a [TypeError] on what has no length. *)
Definition py_len (v : value) : result nat :=
  match v with
  | VSeq xs => Ok (length xs)
  | _ => Raise TypeError
  end.

(** [dim[i]] on a tuple. *)
Definition index (dim : list nat) (i : nat) : result nat :=
  match dim !! i with
  | Some k => Ok k
  | None => Raise IndexError
  end.

(** [scipy.ones(n)] *)
Definition ones (n : nat) : list scalar := replicate n one.

(** Elementwise product of two one-dimensional arrays under numpy's
    broadcasting: equal lengths, or one of the two of length one. *)
Definition broadcast_mul (xs ys : list scalar) : result (list scalar) :=
  if decide (length xs = length ys) then Ok (zip_with smul xs ys)
  else match xs, ys with
       | [x], _ => Ok (smul x <$> ys)
       | _, [y] => Ok ((fun x => smul x y) <$> xs)
       | _, _ => Raise ValueError
       end.

(** [v * arr] for an ndarray [arr] of floats. *)
Definition py_mul (v : value) (arr : list scalar) : result value :=
  match v with
  | VNone => Raise TypeError
  | VFloat x => Ok (VSeq (smul x <$> arr))
  | VInt z => Ok (VSeq (smul (of_int z) <$> arr))
  | VSeq xs => VSeq <$> broadcast_mul xs arr
  end.

Definition None_ : object := OVal VNone.
End Primitives.

(** ** The methods of variational_nodes.py *)

Section Methods.
Context `{Sc : Scalar} `{Ds : !Distributions}.

(** A method body.  It reaches the other methods of [self] only through
    [self.m()], which is resolved on the class of [self] at the time of the
    call; the body receives that dispatcher as its argument. *)
Definition body : Type := (meth -> M object) -> M object.

(** [q.updateExpectations()] for the object [q] that [self.Q] holds.  The
    distribution is mutated in place; the node owns it and reaches it only
    through [self.Q], so the mutated object is written back there. *)
Definition Q_updateExpectations (q : object) : M unit := fun s =>
  match q with
  | ODist d =>
      match Distribution_updateExpectations d with
      | Ok d' =>
          Ok (tt, {| self := set_attr (self s) "Q" (ODist d');
                     trace := trace s ++ [DistUpdate d] |})
      | Raise e => Raise e
      end
  | _ => Raise (AttributeError "updateExpectations")
  end.

(** *** class Variational_Node(Node) *)

Definition Variational_Node_calculateELBO : body := fun _ =>
  mret (OVal (VFloat zero)).

Definition Variational_Node_updateExpectations : body := fun _ =>
  mret None_.

Definition Variational_Node_getExpectation : body := fun _ =>
  mret None_.

Definition Variational_Node_getExpectations : body := fun _ =>
  mret None_.

Definition Variational_Node_updateParameters : body := fun _ =>
  mret None_.

Definition Variational_Node_update : body := fun call =>
  call updateParameters ;;
  call updateExpectations ;;
  mret None_.

Definition Variational_Node_getParameters : body := fun _ =>
  mret None_.

(** *** class Observed_Variational_Node(Variational_Node) *)

Definition Observed_Variational_Node_getObservations : body := fun _ =>
  getattr "obs".

Definition Observed_Variational_Node_getExpectation : body := fun call =>
  call getObservations.

(** *** class Unobserved_Variational_Node(Variational_Node) *)

Definition Unobserved_Variational_Node_updateExpectations : body := fun _ =>
  q ← getattr "Q";
  Q_updateExpectations q ;;
  mret None_.

Definition Unobserved_Variational_Node_getExpectation : body := fun _ =>
  q ← getattr "Q";
  e ← dist_getattr q "E";
  mret (OVal e).

(** *** class UnivariateGaussian_Unobserved_Variational_Node *)

Definition UnivariateGaussian_Unobserved_Variational_Node_getParameters : body := fun _ =>
  q ← getattr "Q";
  mean ← dist_getattr q "mean";
  q ← getattr "Q";
  var ← dist_getattr q "var";
  mret (ODict {[ "mean" := mean; "var" := var ]}).

Definition UnivariateGaussian_Unobserved_Variational_Node_getExpectations : body := fun _ =>
  q ← getattr "Q";
  e ← dist_getattr q "E";
  q ← getattr "Q";
  e2 ← dist_getattr q "E2";
  mret (ODict {[ "E" := e; "E2" := e2 ]}).

(** *** class MultivariateGaussian_Unobserved_Variational_Node *)

(** Lines 154-155 of the file: [def getParameters(self)] is indented with
    one tab, which Python 2 reads as eight columns, the indentation of the
    statements of [__init__] just above it.  The function is therefore
    local to [__init__] and never called; the class gets no
    [getParameters] of its own. *)
Definition MultivariateGaussian_Unobserved_Variational_Node__init__getParameters : body := fun _ =>
  q ← getattr "Q";
  mean ← dist_getattr q "mean";
  q ← getattr "Q";
  cov ← dist_getattr q "cov";
  mret (ODict {[ "mean" := mean; "cov" := cov ]}).

Definition MultivariateGaussian_Unobserved_Variational_Node_getExpectations : body := fun _ =>
  q ← getattr "Q";
  e ← dist_getattr q "E";
  q ← getattr "Q";
  e2 ← dist_getattr q "E2";
  mret (ODict {[ "E" := e; "E2" := e2 ]}).

(** *** class Gamma_Unobserved_Variational_Node *)

Definition Gamma_Unobserved_Variational_Node_getParameters : body := fun _ =>
  q ← getattr "Q";
  a ← dist_getattr q "a";
  q ← getattr "Q";
  b ← dist_getattr q "b";
  mret (ODict {[ "a" := a; "b" := b ]}).

Definition Gamma_Unobserved_Variational_Node_getExpectations : body := fun _ =>
  q ← getattr "Q";
  e ← dist_getattr q "E";
  q ← getattr "Q";
  lne ← dist_getattr q "lnE";
  mret (ODict {[ "E" := e; "lnE" := lne ]}).

(** *** class Bernoulli_Unobserved_Variational_Node *)

Definition Bernoulli_Unobserved_Variational_Node_getParameters : body := fun _ =>
  q ← getattr "Q";
  theta ← dist_getattr q "theta";
  mret (ODict {[ "theta" := theta ]}).

Definition Bernoulli_Unobserved_Variational_Node_getExpectation : body := fun _ =>
  q ← getattr "Q";
  e ← dist_getattr q "E";
  mret (OVal e).

Definition Bernoulli_Unobserved_Variational_Node_getExpectations : body := fun _ =>
  q ← getattr "Q";
  e ← dist_getattr q "E";
  mret (ODict {[ "E" := e ]}).

(** *** class BernoulliGaussian_Unobserved_Variational_Node *)

Definition BernoulliGaussian_Unobserved_Variational_Node_getParameters : body := fun _ =>
  q ← getattr "Q";
  theta ← dist_getattr q "theta";
  q ← getattr "Q";
  mean ← dist_getattr q "mean";
  q ← getattr "Q";
  var ← dist_getattr q "var";
  mret (ODict {[ "theta" := theta; "mean" := mean; "var" := var ]}).

Definition BernoulliGaussian_Unobserved_Variational_Node_getExpectation : body := fun _ =>
  q ← getattr "Q";
  esw ← dist_getattr q "ESW";
  mret (OVal esw).

(** *** Method tables and dispatch *)

(** The methods each class statement defines itself ([__init__] apart,
    which is called by name and kept separately below). *)
Definition methods (c : class) (m : meth) : option body :=
  match c, m with
  | Variational_Node, calculateELBO => Some Variational_Node_calculateELBO
  | Variational_Node, updateExpectations => Some Variational_Node_updateExpectations
  | Variational_Node, getExpectation => Some Variational_Node_getExpectation
  | Variational_Node, getExpectations => Some Variational_Node_getExpectations
  | Variational_Node, updateParameters => Some Variational_Node_updateParameters
  | Variational_Node, update => Some Variational_Node_update
  | Variational_Node, getParameters => Some Variational_Node_getParameters
  | Observed_Variational_Node, getObservations =>
      Some Observed_Variational_Node_getObservations
  | Observed_Variational_Node, getExpectation =>
      Some Observed_Variational_Node_getExpectation
  | Unobserved_Variational_Node, updateExpectations =>
      Some Unobserved_Variational_Node_updateExpectations
  | Unobserved_Variational_Node, getExpectation =>
      Some Unobserved_Variational_Node_getExpectation
  | UnivariateGaussian_Unobserved_Variational_Node, getParameters =>
      Some UnivariateGaussian_Unobserved_Variational_Node_getParameters
  | UnivariateGaussian_Unobserved_Variational_Node, getExpectations =>
      Some UnivariateGaussian_Unobserved_Variational_Node_getExpectations
  | MultivariateGaussian_Unobserved_Variational_Node, getExpectations =>
      Some MultivariateGaussian_Unobserved_Variational_Node_getExpectations
  | Gamma_Unobserved_Variational_Node, getParameters =>
      Some Gamma_Unobserved_Variational_Node_getParameters
  | Gamma_Unobserved_Variational_Node, getExpectations =>
      Some Gamma_Unobserved_Variational_Node_getExpectations
  | Bernoulli_Unobserved_Variational_Node, getParameters =>
      Some Bernoulli_Unobserved_Variational_Node_getParameters
  | Bernoulli_Unobserved_Variational_Node, getExpectation =>
      Some Bernoulli_Unobserved_Variational_Node_getExpectation
  | Bernoulli_Unobserved_Variational_Node, getExpectations =>
      Some Bernoulli_Unobserved_Variational_Node_getExpectations
  | BernoulliGaussian_Unobserved_Variational_Node, getParameters =>
      Some BernoulliGaussian_Unobserved_Variational_Node_getParameters
  | BernoulliGaussian_Unobserved_Variational_Node, getExpectation =>
      Some BernoulliGaussian_Unobserved_Variational_Node_getExpectation
  | _, _ => None
  end.

(** The first class along a resolution order that defines [m]. *)
Fixpoint find_method (cs : list class) (m : meth) : option (class * body) :=
  match cs with
  | [] => None
  | c :: rest =>
      match methods c m with
      | Some b => Some (c, b)
      | None => find_method rest m
      end
  end.

Definition resolve (c : class) (m : meth) : option (class * body) :=
  find_method (mro c) m.

(** [self.m()] with [depth] frames left before the interpreter gives up
    (its recursion limit): look [m] up on the class of [self], enter the
    body found, and let it dispatch its own calls one frame deeper. *)
Fixpoint invoke (depth : nat) (m : meth) : M object := fun s =>
  match depth with
  | O => Raise RecursionError
  | S d =>
      match resolve (node_class (self s)) m with
      | Some (c, b) => (emit (Enter c m) ;; b (invoke d)) s
      | None => Raise (AttributeError (meth_name m))
      end
  end.

End Methods.

(** ** Constructors *)

Section Constructors.
Context `{Sc : Scalar} `{Ds : !Distributions}.

(** Modelled from the spec: [Node.__init__] of nodes.py, which is not
    among the sources.  A node holds its dimensionality and a Markov
    blanket, a mapping that the model assembly fills in later. *)
Definition Node__init__ (dim : list nat) : M unit :=
  setattr "dim" (OShape dim) ;;
  setattr "markov_blanket" (ODict ∅).

Definition Variational_Node__init__ (dim : list nat) : M unit :=
  Node__init__ dim.

Definition Observed_Variational_Node__init__ (dim : list nat) (obs : object) : M unit :=
  Variational_Node__init__ dim ;;
  setattr "obs" obs.

Definition Unobserved_Variational_Node__init__ (dim : list nat) : M unit :=
  Variational_Node__init__ dim ;;
  setattr "P" None_ ;;
  setattr "Q" None_.

(** [qE] and [qE2] default to [None]. *)
Definition UnivariateGaussian_Unobserved_Variational_Node__init__
    (dim : list nat) (pmean pvar qmean qvar qE qE2 : value) : M unit :=
  Unobserved_Variational_Node__init__ dim ;;
  p ← lift (Distribution_init UnivariateGaussian dim
              {[ "mean" := pmean; "var" := pvar ]});
  setattr "P" (ODist p) ;;
  q ← lift (Distribution_init UnivariateGaussian dim
              {[ "mean" := qmean; "var" := qvar; "E" := qE; "E2" := qE2 ]});
  setattr "Q" (ODist q).

(** The prior is commented out in the source; the local [def
    getParameters] that follows the assignment of [self.Q] binds a name
    that dies with the call. *)
Definition MultivariateGaussian_Unobserved_Variational_Node__init__
    (dim : list nat) (qmean qcov qE qE2 : value) : M unit :=
  Unobserved_Variational_Node__init__ dim ;;
  q ← lift (Distribution_init MultivariateGaussian dim
              {[ "mean" := qmean; "cov" := qcov; "E" := qE; "E2" := qE2 ]});
  setattr "Q" (ODist q).

Definition Gamma_Unobserved_Variational_Node__init__
    (dim : list nat) (pa pb qa qb qE : value) : M unit :=
  Unobserved_Variational_Node__init__ dim ;;
  p ← lift (Distribution_init Gamma [1%nat] {[ "a" := pa; "b" := pb ]});
  setattr "P" (ODist p) ;;
  q ← lift (Distribution_init Gamma dim {[ "a" := qa; "b" := qb; "E" := qE ]});
  setattr "Q" (ODist q).

Definition Bernoulli_Unobserved_Variational_Node__init__
    (dim : list nat) (ptheta qtheta qE : value) : M unit :=
  Unobserved_Variational_Node__init__ dim ;;
  p ← lift (Distribution_init Bernoulli [1%nat] {[ "theta" := ptheta ]});
  setattr "P" (ODist p) ;;
  q ← lift (Distribution_init Bernoulli dim {[ "theta" := qtheta; "E" := qE ]});
  setattr "Q" (ODist q).

(** [type(ptheta) == float or len(ptheta) == 1]: [or] evaluates its
    second operand only when the first is false. *)
Definition ptheta_is_scalar (ptheta : value) : result bool :=
  if type_is_float ptheta then Ok true
  else n ← py_len ptheta; Ok (bool_decide (n = 1%nat)).

(** The [assert] is executed: the interpreter runs without [-O]. *)
Definition BernoulliGaussian_Unobserved_Variational_Node__init__
    (dim : list nat) (qmean qvar ptheta qtheta : value) : M unit :=
  Unobserved_Variational_Node__init__ dim ;;
  broadcast ← lift (ptheta_is_scalar ptheta);
  (if broadcast : bool then
     k ← lift (index dim 1);
     v ← lift (py_mul ptheta (ones k));
     setattr "P_theta" (OVal v)
   else
     n ← lift (py_len ptheta);
     k ← lift (index dim 1);
     (if decide (n = k) then mret tt
      else raise (AssertionError "ptheta dimension mismatch")) ;;
     setattr "P_theta" (OVal ptheta)) ;;
  q ← lift (Distribution_init BernoulliGaussian dim
              {[ "theta" := qtheta; "mean" := qmean; "var" := qvar ]});
  setattr "Q" (ODist q).

(** [C(args)]: a fresh instance of [C] with an empty dictionary, handed to
    the [__init__] of [C]. *)
Definition instantiate (c : class) (init : M unit) : result node :=
  match init {| self := {| node_class := c; node_attrs := ∅ |}; trace := [] |} with
  | Ok (_, s) => Ok (self s)
  | Raise e => Raise e
  end.

Definition new_Observed_Variational_Node (dim : list nat) (obs : object) : result node :=
  instantiate Observed_Variational_Node (Observed_Variational_Node__init__ dim obs).

Definition new_Unobserved_Variational_Node (dim : list nat) : result node :=
  instantiate Unobserved_Variational_Node (Unobserved_Variational_Node__init__ dim).

Definition new_UnivariateGaussian_Unobserved_Variational_Node
    (dim : list nat) (pmean pvar qmean qvar qE qE2 : value) : result node :=
  instantiate UnivariateGaussian_Unobserved_Variational_Node
    (UnivariateGaussian_Unobserved_Variational_Node__init__ dim pmean pvar qmean qvar qE qE2).

Definition new_MultivariateGaussian_Unobserved_Variational_Node
    (dim : list nat) (qmean qcov qE qE2 : value) : result node :=
  instantiate MultivariateGaussian_Unobserved_Variational_Node
    (MultivariateGaussian_Unobserved_Variational_Node__init__ dim qmean qcov qE qE2).

Definition new_Gamma_Unobserved_Variational_Node
    (dim : list nat) (pa pb qa qb qE : value) : result node :=
  instantiate Gamma_Unobserved_Variational_Node
    (Gamma_Unobserved_Variational_Node__init__ dim pa pb qa qb qE).

Definition new_Bernoulli_Unobserved_Variational_Node
    (dim : list nat) (ptheta qtheta qE : value) : result node :=
  instantiate Bernoulli_Unobserved_Variational_Node
    (Bernoulli_Unobserved_Variational_Node__init__ dim ptheta qtheta qE).

Definition new_BernoulliGaussian_Unobserved_Variational_Node
    (dim : list nat) (qmean qvar ptheta qtheta : value) : result node :=
  instantiate BernoulliGaussian_Unobserved_Variational_Node
    (BernoulliGaussian_Unobserved_Variational_Node__init__ dim qmean qvar ptheta qtheta).

End Constructors.

(** ** A stand-in for distributions.py

    To run the node layer on concrete inputs, floats are replaced by
    rationals and the Distribution classes by a small collaborator with
    the right field names: the constructor stores the parameters it is
    given and keeps the moments it is seeded with; [updateExpectations]
    recomputes, from the parameters alone, the moments that are rational
    functions of them and leaves the others at [None]. *)

Definition Q_Scalar : Scalar.
Proof.
  refine {| scalar := Q; zero := 0%Q; one := 1%Q; smul := Qmult;
            of_int := inject_Z; smul_one_r := _ |}.
  intros [a b]. unfold Qmult. simpl.
  rewrite Z.mul_1_r, Pos.mul_1_r. reflexivity.
Defined.

Definition stub_moment_names : list string := ["E"; "E2"; "lnE"; "ESW"].

(** An arithmetic operation on two arrays, or on an array and a number. *)
Definition stub_zip (f : Q -> Q -> Q) (u v : @value Q_Scalar) : @value Q_Scalar :=
  match u, v with
  | VSeq xs, VSeq ys => @VSeq Q_Scalar (zip_with f xs ys)
  | VFloat x, VSeq ys => @VSeq Q_Scalar (f x <$> ys)
  | VSeq xs, VFloat y => @VSeq Q_Scalar ((fun x => f x y) <$> xs)
  | VFloat x, VFloat y => @VFloat Q_Scalar (f x y)
  | _, _ => VNone
  end.

(** [E = mean] and [E2 = mean^2 + var] for a Gaussian, [E = a / b] for a
    Gamma, [E = theta] for a Bernoulli, [E[S*W] = theta * mean] for the
    spike and slab. *)
Definition stub_moments (f : family) (params : gmap string (@value Q_Scalar))
    : gmap string (@value Q_Scalar) :=
  let p := fun a => default VNone (params !! a) in
  match f with
  | UnivariateGaussian =>
      {[ "E" := p "mean";
         "E2" := stub_zip Qplus (stub_zip Qmult (p "mean") (p "mean")) (p "var") ]}
  | MultivariateGaussian =>
      {[ "E" := p "mean"; "E2" := VNone ]}
  | Gamma =>
      {[ "E" := stub_zip Qdiv (p "a") (p "b"); "lnE" := VNone ]}
  | Bernoulli =>
      {[ "E" := p "theta" ]}
  | BernoulliGaussian =>
      {[ "E" := p "mean"; "ESW" := stub_zip Qmult (p "theta") (p "mean") ]}
  end.

Definition stub_is_none (v : @value Q_Scalar) : bool :=
  match v with
  | VNone => true
  | _ => false
  end.

Definition stub_init (f : family) (dim : list nat) (kwargs : gmap string (@value Q_Scalar))
    : result (@Distribution Q_Scalar) :=
  let params := filter (fun kv => kv.1 ∉ stub_moment_names) kwargs in
  let seeds := filter (fun kv => kv.1 ∈ stub_moment_names /\ stub_is_none kv.2 = false) kwargs in
  Ok {| dist_class := f; dist_dim := dim; dist_params := params;
        dist_moments := seeds ∪ stub_moments f params |}.

Definition stub_updateExpectations (d : @Distribution Q_Scalar)
    : result (@Distribution Q_Scalar) :=
  Ok {| dist_class := dist_class d; dist_dim := dist_dim d;
        dist_params := dist_params d;
        dist_moments := stub_moments (dist_class d) (dist_params d) |}.

Definition stub_Distributions : @Distributions Q_Scalar :=
  {| Distribution_init := stub_init;
     Distribution_updateExpectations := stub_updateExpectations |}.

(** ** Observations on the outcome of a call *)

Section Observations.
Context `{Sc : Scalar}.

(** The state [s] with the events [es] recorded after those it holds. *)
Definition logged (s : state) (es : list event) : state :=
  {| self := self s; trace := trace s ++ es |}.

(** What a caller can see of a call: the value returned and the node it
    leaves behind, or the exception. *)
Definition observe (r : result (object * state)) : result (object * node) :=
  match r with
  | Ok (o, s) => Ok (o, self s)
  | Raise e => Raise e
  end.

(** [c] is [Unobserved_Variational_Node] or one of its subclasses. *)
Definition unobserved (c : class) : bool :=
  bool_decide (Unobserved_Variational_Node ∈ mro c).

(** The five family-specific node classes. *)
Definition family_specific (c : class) : bool :=
  bool_decide (parent c = Some Unobserved_Variational_Node).

(** The moments of the posterior a node holds in [Q], if it holds one. *)
Definition Q_moments (n : node) : option (gmap string value) :=
  match node_attrs n !! "Q" with
  | Some (ODist q) => Some (dist_moments q)
  | _ => None
  end.

(** The attribute [a] of the node [n] is bound to [o]. *)
Definition holds (n : node) (a : string) (o : object) : Prop :=
  node_attrs n !! a = Some o.

(** A construction that makes its prior by the call [initP] and its
    posterior by the call [initQ]: it returns a node exactly when both
    calls return, and the node then holds their results in [P] and [Q]. *)
Definition built_from (construction : result node)
    (initP initQ : result Distribution) : Prop :=
  (forall n, construction = Ok n ->
     exists p q, initP = Ok p /\ initQ = Ok q
                 /\ holds n "P" (ODist p) /\ holds n "Q" (ODist q))
  /\ (forall p q, initP = Ok p -> initQ = Ok q -> exists n, construction = Ok n).

(** The key sets the spec documents for [getParameters()], family by
    family (a second definition, from the spec's words, to compare the
    methods with). *)
Definition documented_parameters (c : class) : gset string :=
  match c with
  | UnivariateGaussian_Unobserved_Variational_Node => {[ "mean"; "var" ]}
  | MultivariateGaussian_Unobserved_Variational_Node => {[ "mean"; "cov" ]}
  | Gamma_Unobserved_Variational_Node => {[ "a"; "b" ]}
  | Bernoulli_Unobserved_Variational_Node => {[ "theta" ]}
  | BernoulliGaussian_Unobserved_Variational_Node => {[ "theta"; "mean"; "var" ]}
  | _ => ∅
  end.

(** Likewise for [getExpectations()]; the spec documents none for the
    spike-and-slab node. *)
Definition documented_expectations (c : class) : gset string :=
  match c with
  | UnivariateGaussian_Unobserved_Variational_Node => {[ "E"; "E2" ]}
  | MultivariateGaussian_Unobserved_Variational_Node => {[ "E"; "E2" ]}
  | Gamma_Unobserved_Variational_Node => {[ "E"; "lnE" ]}
  | Bernoulli_Unobserved_Variational_Node => {[ "E" ]}
  | _ => ∅
  end.

(** A computation that, whenever it returns, leaves [self] as it found
    it. *)
Definition preserves_self {A : Type} (c : M A) : Prop :=
  forall s a s', c s = Ok (a, s') -> self s' = self s.

(** The methods that only read: all but [update] and
    [updateExpectations]. *)
Definition reader (m : meth) : bool :=
  match m with
  | update | updateExpectations => false
  | _ => true
  end.

(** The fields of [Q] that a mapping-valued method reads, in the order in
    which its dict display evaluates them, by the class whose statement
    defines the method (empty where the class defines none). *)
Definition dict_fields (c : class) (m : meth) : list string :=
  match c, m with
  | UnivariateGaussian_Unobserved_Variational_Node, getParameters => ["mean"; "var"]
  | UnivariateGaussian_Unobserved_Variational_Node, getExpectations => ["E"; "E2"]
  | MultivariateGaussian_Unobserved_Variational_Node, getExpectations => ["E"; "E2"]
  | Gamma_Unobserved_Variational_Node, getParameters => ["a"; "b"]
  | Gamma_Unobserved_Variational_Node, getExpectations => ["E"; "lnE"]
  | Bernoulli_Unobserved_Variational_Node, getParameters => ["theta"]
  | Bernoulli_Unobserved_Variational_Node, getExpectations => ["E"]
  | BernoulliGaussian_Unobserved_Variational_Node, getParameters =>
      ["theta"; "mean"; "var"]
  | _, _ => []
  end.

(** Reading the fields [ks] off the fields [f] of a distribution, first
    to last, into a mapping: the first one that is absent raises. *)
Fixpoint read_fields (ks : list string) (f : gmap string value)
    : result (gmap string value) :=
  match ks with
  | [] => Ok ∅
  | k :: rest =>
      match f !! k with
      | None => Raise (AttributeError k)
      | Some v =>
          match read_fields rest f with
          | Ok mp => Ok (<[k := v]> mp)
          | Raise e => Raise e
          end
      end
  end.

(** A construction that hands on the exception of the first of its two
    Distribution constructors to fail, the prior's before the
    posterior's. *)
Definition propagates (construction : result node)
    (initP initQ : result Distribution) : Prop :=
  (forall e, initP = Raise e -> construction = Raise e)
  /\ (forall p e, initP = Ok p -> initQ = Raise e -> construction = Raise e).

End Observations.

Section Outcomes.
Context `{Sc : Scalar} `{Ds : !Distributions}.

(** What [updateExpectations] does, by the class of [self]: below
    [Unobserved_Variational_Node] it delegates to [self.Q], elsewhere it
    does nothing. *)
Definition updateExpectations_outcome (s : state) : result (object * state) :=
  if unobserved (node_class (self s)) then
    match node_attrs (self s) !! "Q" with
    | Some (ODist q) =>
        match Distribution_updateExpectations q with
        | Ok q' =>
            Ok (None_,
                {| self := set_attr (self s) "Q" (ODist q');
                   trace := trace s ++ [Enter Unobserved_Variational_Node updateExpectations;
                                        DistUpdate q] |})
        | Raise e => Raise e
        end
    | Some _ => Raise (AttributeError "updateExpectations")
    | None => Raise (AttributeError "Q")
    end
  else Ok (None_, logged s [Enter Variational_Node updateExpectations]).

(** The dictionary of a node when [Unobserved_Variational_Node.__init__]
    returns. *)
Definition unobserved_attrs (dim : list nat) : gmap string object :=
  <["Q" := None_]> (<["P" := None_]>
    (<["markov_blanket" := ODict ∅]> (<["dim" := OShape dim]> ∅))).

End Outcomes.

(** *** Example inputs

    Calls of the constructors on the stand-in, as a driver would write
    them. *)

Section Examples.
#[local] Existing Instance Q_Scalar.
#[local] Existing Instance stub_Distributions.

(** The node a construction returned ([Variational_Node] with an empty
    dictionary stands for none). *)
Definition the_node (r : result node) : node :=
  match r with
  | Ok n => n
  | Raise _ => {| node_class := Variational_Node; node_attrs := ∅ |}
  end.

Definition fresh (n : node) : state := {| self := n; trace := [] |}.

(** [Gamma_Unobserved_Variational_Node((5,), 1., 1., [2.]*5, [1.]*5, [7.]*5)] *)
Definition gamma_example : result node :=
  new_Gamma_Unobserved_Variational_Node [5%nat]
    (VFloat 1%Q) (VFloat 1%Q)
    (VSeq [2; 2; 2; 2; 2]%Q) (VSeq [1; 1; 1; 1; 1]%Q) (VSeq [7; 7; 7; 7; 7]%Q).

(** [MultivariateGaussian_Unobserved_Variational_Node((2,2), [0.,0.], [1.,0.,0.,1.])] *)
Definition multivariate_example : result node :=
  new_MultivariateGaussian_Unobserved_Variational_Node [2%nat; 2%nat]
    (VSeq [0; 0]%Q) (VSeq [1; 0; 0; 1]%Q) VNone VNone.

Definition example_qmean : value := VSeq [3; 3; 3]%Q.
Definition example_qvar : value := VSeq [1; 1; 1]%Q.
Definition example_qtheta : value := VSeq [1 # 4; 1 # 4; 1 # 4].

(** [BernoulliGaussian_Unobserved_Variational_Node((2,3), [3.]*3, [1.]*3, ptheta, [.25]*3)] *)
Definition spike_slab_example (ptheta : value) : result node :=
  new_BernoulliGaussian_Unobserved_Variational_Node [2%nat; 3%nat]
    example_qmean example_qvar ptheta example_qtheta.

(** The spike-and-slab example with the float prior [0.5]. *)
Definition spike_slab_node : node := the_node (spike_slab_example (VFloat (1 # 2))).

(** The posterior the stand-in builds for the spike-and-slab example. *)
Definition spike_slab_posterior : Distribution :=
  {| dist_class := BernoulliGaussian;
     dist_dim := [2%nat; 3%nat];
     dist_params := {[ "theta" := example_qtheta; "mean" := example_qmean;
                       "var" := example_qvar ]};
     dist_moments := {[ "E" := example_qmean;
                        "ESW" := VSeq [3 # 4; 3 # 4; 3 # 4] ]} |}.

Definition gamma_node : node := the_node gamma_example.

(** The posterior the stand-in builds for the Gamma example: the seeded
    [E] is kept, [lnE] is left at [None]. *)
Definition gamma_posterior : Distribution :=
  {| dist_class := Gamma;
     dist_dim := [5%nat];
     dist_params := {[ "a" := VSeq [2; 2; 2; 2; 2]%Q; "b" := VSeq [1; 1; 1; 1; 1]%Q ]};
     dist_moments := {[ "E" := VSeq [7; 7; 7; 7; 7]%Q; "lnE" := VNone ]} |}.

(** The state a call left behind ([s0] if it raised). *)
Definition final (r : result (object * state)) (s0 : state) : state :=
  match r with
  | Ok (_, s) => s
  | Raise _ => s0
  end.

Definition gamma_updated : state :=
  final (invoke 2 update (fresh gamma_node)) (fresh gamma_node).

Definition gamma_refreshed : state :=
  final (invoke 1 updateExpectations (fresh gamma_node)) (fresh gamma_node).

(** The first moment in [Q], if there is one. *)
Definition first_moment (n : node) : option value :=
  m ← Q_moments n; m !! "E".

(** A Gamma node whose posterior has the field [a] and nothing else. *)
Definition gamma_without_b : state :=
  fresh {| node_class := Gamma_Unobserved_Variational_Node;
           node_attrs :=
             {[ "Q" := ODist {| dist_class := Gamma; dist_dim := [5%nat];
                                dist_params := {[ "a" := VSeq [2; 2; 2; 2; 2]%Q ]};
                                dist_moments := ∅ |} ]} |}.

Definition example_ptheta3 : value := VSeq [1 # 2; 1 # 3; 1 # 4].

End Examples.

(** The contract the spec asks of the Distribution collaborator:
    [updateExpectations()] recomputes the moments from the current
    parameters (and the fixed family and dimensionality) and from nothing
    else, leaving the parameters as they are. *)
Definition pure_recomputation `{Sc : Scalar} `{Ds : !Distributions} : Prop :=
  exists f : family -> list nat -> gmap string value -> result (gmap string value),
    forall d : Distribution,
      Distribution_updateExpectations d =
        (m ← f (dist_class d) (dist_dim d) (dist_params d);
         Ok {| dist_class := dist_class d; dist_dim := dist_dim d;
               dist_params := dist_params d; dist_moments := m |}).

(** * Properties *)

Section Properties.
Context `{Sc : Scalar} `{Ds : !Distributions}.

(** ** Dispatch *)

(** Unfolds the plumbing of the two monads, leaving the calls. *)
Ltac run_monad :=
  cbv beta iota zeta
      delta [mbind M_bind result_bind mret M_ret result_ret fmap result_fmap
             lift raise setattr index];
  cbn [self trace fst snd].

Lemma bind_run {A B : Type} (c : M A) (f : A -> M B) (s : state) :
  (c ≫= f) s =
    match c s with
    | Ok (a, s') => f a s'
    | Raise e => Raise e
    end.
Proof. reflexivity. Qed.

Lemma invoke_S (d : nat) (m : meth) (s : state) :
  invoke (S d) m s =
    match resolve (node_class (self s)) m with
    | Some (c, b) => (emit (Enter c m) ;; b (invoke d)) s
    | None => Raise (AttributeError (meth_name m))
    end.
Proof. reflexivity. Qed.

(** Every resolution order ends at [Variational_Node], the root. *)
Lemma mro_reaches_root (c : class) : last (mro c) = Some Variational_Node.
Proof. destruct c; reflexivity. Qed.

(** [update] and [updateParameters] are defined once, at the root. *)
Lemma resolve_update (c : class) :
  resolve c update = Some (Variational_Node, Variational_Node_update).
Proof. destruct c; reflexivity. Qed.

Lemma resolve_updateParameters (c : class) :
  resolve c updateParameters =
    Some (Variational_Node, Variational_Node_updateParameters).
Proof. destruct c; reflexivity. Qed.

Lemma resolve_updateExpectations (c : class) :
  resolve c updateExpectations =
    if unobserved c
    then Some (Unobserved_Variational_Node,
               Unobserved_Variational_Node_updateExpectations)
    else Some (Variational_Node, Variational_Node_updateExpectations).
Proof. destruct c; reflexivity. Qed.

Lemma invoke_updateParameters (d : nat) (s : state) :
  invoke (S d) updateParameters s =
    Ok (None_, logged s [Enter Variational_Node updateParameters]).
Proof. rewrite invoke_S, resolve_updateParameters. reflexivity. Qed.

Lemma invoke_updateExpectations (d : nat) (s : state) :
  invoke (S d) updateExpectations s = updateExpectations_outcome s.
Proof.
  rewrite invoke_S, resolve_updateExpectations.
  unfold updateExpectations_outcome.
  destruct (unobserved (node_class (self s))); [|reflexivity].
  unfold Unobserved_Variational_Node_updateExpectations, mbind, M_bind, emit, getattr.
  simpl.
  destruct (node_attrs (self s) !! "Q") as [[v|t|q|m]|]; try reflexivity.
  unfold Q_updateExpectations. simpl.
  destruct (Distribution_updateExpectations q) as [q'|e]; simpl; [|reflexivity].
  rewrite <- app_assoc. reflexivity.
Qed.

Lemma unfold_update (d : nat) (s : state) :
  invoke (S (S d)) update s =
    (emit (Enter Variational_Node update) ;;
     invoke (S d) updateParameters ;;
     invoke (S d) updateExpectations ;;
     mret None_) s.
Proof. rewrite invoke_S, resolve_update. reflexivity. Qed.

(** [update()] in one step: the outcome of [updateExpectations()] on the
    node as it was, with [None] for a result. *)
Lemma invoke_update (d : nat) (s : state) :
  invoke (S (S d)) update s =
    match updateExpectations_outcome
            (logged s [Enter Variational_Node update;
                       Enter Variational_Node updateParameters]) with
    | Ok (_, s') => Ok (None_, s')
    | Raise e => Raise e
    end.
Proof.
  rewrite unfold_update, bind_run. unfold emit at 1.
  rewrite bind_run, invoke_updateParameters.
  rewrite bind_run, invoke_updateExpectations.
  unfold logged. simpl. rewrite <- app_assoc. simpl.
  destruct (updateExpectations_outcome _) as [[r1 s2]|e]; reflexivity.
Qed.

(** A successful [updateExpectations] returns [None], keeps the class of
    the node and every attribute other than [Q], and records its own
    entry first. *)
Lemma updateExpectations_frame (s s' : state) (r : object) :
  updateExpectations_outcome s = Ok (r, s') ->
  r = None_
  /\ node_class (self s') = node_class (self s)
  /\ (forall a, a <> "Q" -> node_attrs (self s') !! a = node_attrs (self s) !! a)
  /\ exists c rest,
       resolve (node_class (self s)) updateExpectations = Some c
       /\ trace s' = trace s ++ Enter c.1 updateExpectations :: rest.
Proof.
  unfold updateExpectations_outcome.
  rewrite resolve_updateExpectations.
  destruct (unobserved (node_class (self s))).
  - destruct (node_attrs (self s) !! "Q") as [[v|t|q|m]|]; try discriminate.
    destruct (Distribution_updateExpectations q) as [q'|e]; [|discriminate].
    intros [= <- <-]. simpl. repeat split.
    + intros a Ha. by rewrite lookup_insert_ne.
    + eexists _, _. split; reflexivity.
  - intros [= <- <-]. simpl. repeat split.
    eexists _, _. split; [reflexivity|]. reflexivity.
Qed.

(** ** The update protocol *)

(** C2. On every node, [update()] is [updateParameters()] followed by
    [updateExpectations()], each resolved on the class of the node, in
    that order.  When it returns, it returns [None], the calls were
    entered in that order, and the node differs from the one before at
    most in its attribute [Q].  Below [Unobserved_Variational_Node] the
    call returns exactly when [Q] holds a Distribution whose
    [updateExpectations()] returns, and then [Q] is that distribution as
    the method left it, the delegated call being the last thing that
    happened; on the other nodes nothing changes at all. *)
Theorem update_runs_updateParameters_then_updateExpectations (d : nat) (s : state) :
  invoke (S (S d)) update s =
    (emit (Enter Variational_Node update) ;;
     invoke (S d) updateParameters ;;
     invoke (S d) updateExpectations ;;
     mret None_) s
  /\ (forall (r : object) (s' : state),
       invoke (S (S d)) update s = Ok (r, s') ->
       r = None_
       /\ node_class (self s') = node_class (self s)
       /\ (forall a, a <> "Q" -> node_attrs (self s') !! a = node_attrs (self s) !! a)
       /\ (exists c rest,
            resolve (node_class (self s)) updateExpectations = Some c
            /\ trace s' =
                 trace s ++ Enter Variational_Node update
                         :: Enter Variational_Node updateParameters
                         :: Enter c.1 updateExpectations :: rest)
       /\ (unobserved (node_class (self s)) = true ->
           exists q q',
             node_attrs (self s) !! "Q" = Some (ODist q)
             /\ Distribution_updateExpectations q = Ok q'
             /\ self s' = set_attr (self s) "Q" (ODist q')
             /\ trace s' =
                  trace s ++ [Enter Variational_Node update;
                              Enter Variational_Node updateParameters;
                              Enter Unobserved_Variational_Node updateExpectations;
                              DistUpdate q])
       /\ (unobserved (node_class (self s)) = false ->
           self s' = self s
           /\ trace s' =
                trace s ++ [Enter Variational_Node update;
                            Enter Variational_Node updateParameters;
                            Enter Variational_Node updateExpectations]))
  /\ (forall q q',
       unobserved (node_class (self s)) = true ->
       node_attrs (self s) !! "Q" = Some (ODist q) ->
       Distribution_updateExpectations q = Ok q' ->
       invoke (S (S d)) update s =
         Ok (None_,
             {| self := set_attr (self s) "Q" (ODist q');
                trace :=
                  trace s ++ [Enter Variational_Node update;
                              Enter Variational_Node updateParameters;
                              Enter Unobserved_Variational_Node updateExpectations;
                              DistUpdate q] |})).
Proof.
  split; [apply unfold_update|]. split.
  - intros r s' Hrun.
    assert (r = None_
            /\ node_class (self s') = node_class (self s)
            /\ (forall a, a <> "Q" ->
                  node_attrs (self s') !! a = node_attrs (self s) !! a)
            /\ exists c rest,
                 resolve (node_class (self s)) updateExpectations = Some c
                 /\ trace s' =
                      trace s ++ Enter Variational_Node update
                              :: Enter Variational_Node updateParameters
                              :: Enter c.1 updateExpectations :: rest)
      as (Hr & Hc & Ha & Ht).
    { revert Hrun. rewrite invoke_update.
      set (s1 := logged _ _).
      destruct (updateExpectations_outcome s1) as [[r1 s2]|e] eqn:E; [|discriminate].
      intros [= <- <-].
      apply updateExpectations_frame in E as (_ & Hc & Ha & c & rest & Hr & Ht).
      subst s1. simpl in *.
      repeat split; try assumption.
      exists c, rest. split; [assumption|].
      rewrite Ht, <- !app_assoc. reflexivity. }
    split; [exact Hr|]. split; [exact Hc|]. split; [exact Ha|]. split; [exact Ht|].
    clear Hr Hc Ha Ht. revert Hrun. rewrite invoke_update.
    unfold updateExpectations_outcome, logged. cbn [self trace].
    intros Hrun. split.
    + intros Hu. rewrite Hu in Hrun.
      destruct (node_attrs (self s) !! "Q") as [[v|t|q|m]|]; try discriminate.
      destruct (Distribution_updateExpectations q) as [q'|e] eqn:Hq; [|discriminate].
      injection Hrun as <- <-. exists q, q'. cbn [self trace].
      rewrite <- !app_assoc. repeat split. exact Hq.
    + intros Hu. rewrite Hu in Hrun. injection Hrun as <- <-. cbn [self trace].
      rewrite <- !app_assoc. split; reflexivity.
  - intros q q' Hu HQ Hq. rewrite invoke_update.
    unfold updateExpectations_outcome, logged. cbn [self trace].
    rewrite Hu, HQ, Hq, <- !app_assoc. reflexivity.
Qed.

(** C9. No class of the file overrides [updateParameters], so on every
    node [update()] returns what [updateExpectations()] returns and
    leaves the same node behind (or raises the same exception).  The one
    change [update()] can make is to replace [Q] by what
    [Q.updateExpectations()] made of it; when that method leaves the
    parameters alone, so does [update()]. *)
Theorem update_is_updateExpectations :
  (forall c, c <> Variational_Node -> methods c updateParameters = None)
  /\ (forall c, resolve c updateParameters =
                  Some (Variational_Node, Variational_Node_updateParameters))
  /\ (forall d s,
        observe (invoke (S (S d)) update s) =
        observe (invoke (S (S d)) updateExpectations s))
  /\ (forall d s r s' q,
        invoke (S (S d)) update s = Ok (r, s') ->
        node_attrs (self s) !! "Q" = Some (ODist q) ->
        exists q',
          node_attrs (self s') !! "Q" = Some (ODist q')
          /\ (q' = q \/ Distribution_updateExpectations q = Ok q')
          /\ ((forall x x', Distribution_updateExpectations x = Ok x' ->
                            dist_params x' = dist_params x) ->
              dist_params q' = dist_params q)).
Proof.
  split; [|split; [|split]].
  - intros c Hc. destruct c; try reflexivity. by destruct Hc.
  - apply resolve_updateParameters.
  - intros d s. rewrite invoke_update, invoke_updateExpectations.
    unfold updateExpectations_outcome, logged. simpl.
    destruct (unobserved (node_class (self s))); [|reflexivity].
    destruct (node_attrs (self s) !! "Q") as [[v|t|q|m]|]; try reflexivity.
    destruct (Distribution_updateExpectations q); reflexivity.
  - intros d s r s' q. rewrite invoke_update.
    unfold updateExpectations_outcome, logged. simpl.
    intros Hrun HQ. rewrite HQ in Hrun.
    destruct (unobserved (node_class (self s))).
    + destruct (Distribution_updateExpectations q) as [q'|e] eqn:E; [|discriminate].
      simpl in Hrun. injection Hrun as <- <-. simpl.
      exists q'. rewrite lookup_insert_eq. repeat split; eauto.
    + simpl in Hrun. injection Hrun as <- <-. simpl.
      exists q. repeat split; eauto.
Qed.

(** C8. When the distribution's [updateExpectations()] is a pure
    recomputation of the moments from the parameters, a second
    [updateExpectations()] on a node, right after a first one that
    returned, returns as well and leaves the node as the first call left
    it: the moments in [Q] after the two calls are the same. *)
Theorem updateExpectations_twice_same_moments :
  pure_recomputation ->
  forall d s r s1,
    invoke (S d) updateExpectations s = Ok (r, s1) ->
    exists s2,
      invoke (S d) updateExpectations s1 = Ok (r, s2)
      /\ self s2 = self s1
      /\ Q_moments (self s2) = Q_moments (self s1).
Proof.
  intros [f Hf] d s r s1. rewrite !invoke_updateExpectations.
  unfold updateExpectations_outcome.
  destruct (unobserved (node_class (self s))) eqn:Hc.
  - destruct (node_attrs (self s) !! "Q") as [[v|t|q|m]|]; try discriminate.
    rewrite (Hf q).
    destruct (f (dist_class q) (dist_dim q) (dist_params q)) as [mo|e] eqn:Hm;
      [|discriminate].
    simpl. intros [= <- <-]. simpl. rewrite Hc, lookup_insert_eq, Hf. simpl.
    rewrite Hm. simpl. eexists. split; [reflexivity|]. simpl.
    assert (set_attr (set_attr (self s) "Q"
              (ODist {| dist_class := dist_class q; dist_dim := dist_dim q;
                        dist_params := dist_params q; dist_moments := mo |})) "Q"
              (ODist {| dist_class := dist_class q; dist_dim := dist_dim q;
                        dist_params := dist_params q; dist_moments := mo |})
            = set_attr (self s) "Q"
              (ODist {| dist_class := dist_class q; dist_dim := dist_dim q;
                        dist_params := dist_params q; dist_moments := mo |})) as E.
    { unfold set_attr. simpl. by rewrite insert_insert_eq. }
    rewrite E. split; reflexivity.
  - intros [= <- <-]. simpl. rewrite Hc. eexists. split; [reflexivity|].
    split; reflexivity.
Qed.

(** ** Observed nodes *)

(** C3. An observed node built from [obs] answers [getExpectation()] and
    [getObservations()] with [obs] itself, and [update()],
    [updateParameters()] and [updateExpectations()] return [None] and
    leave the node, [obs] included, as it was. *)
Theorem observed_node_keeps_obs (dim : list nat) (obs : object) :
  exists n,
    new_Observed_Variational_Node dim obs = Ok n
    /\ node_attrs n !! "obs" = Some obs
    /\ forall d tr,
         observe (invoke (S (S d)) getExpectation {| self := n; trace := tr |})
           = Ok (obs, n)
         /\ observe (invoke (S (S d)) getObservations {| self := n; trace := tr |})
              = Ok (obs, n)
         /\ observe (invoke (S (S d)) update {| self := n; trace := tr |})
              = Ok (None_, n)
         /\ observe (invoke (S (S d)) updateParameters {| self := n; trace := tr |})
              = Ok (None_, n)
         /\ observe (invoke (S (S d)) updateExpectations {| self := n; trace := tr |})
              = Ok (None_, n).
Proof.
  eexists. split; [reflexivity|]. split; [reflexivity|].
  intros d tr. repeat split.
Qed.

(** ** Getters of the posterior *)

Lemma invoke_getter (d : nat) (m : meth) (s : state) (c : class) (b : body)
    (q : object) (a : string) :
  resolve (node_class (self s)) m = Some (c, b) ->
  (forall call, b call = (q ← getattr "Q"; e ← dist_getattr q a; mret (OVal e))) ->
  node_attrs (self s) !! "Q" = Some q ->
  invoke (S d) m s =
    match q with
    | ODist x =>
        match dist_fields x !! a with
        | Some v => Ok (OVal v, logged s [Enter c m])
        | None => Raise (AttributeError a)
        end
    | _ => Raise (AttributeError a)
    end.
Proof.
  intros Hr Hb HQ. rewrite invoke_S, Hr, bind_run. unfold emit at 1.
  rewrite Hb, bind_run. unfold getattr at 1. simpl. rewrite HQ.
  rewrite bind_run. unfold dist_getattr.
  destruct q as [v|t|x|m']; try reflexivity.
  destruct (dist_fields x !! a); reflexivity.
Qed.

(** C7. On a spike-and-slab node [getExpectation()] is the class's own
    method and returns the field [ESW] of [Q]; on the other unobserved
    nodes it returns the field [E] of [Q], as the method inherited from
    [Unobserved_Variational_Node] does. *)
Theorem BernoulliGaussian_getExpectation_is_ESW :
  resolve BernoulliGaussian_Unobserved_Variational_Node getExpectation =
    Some (BernoulliGaussian_Unobserved_Variational_Node,
          BernoulliGaussian_Unobserved_Variational_Node_getExpectation)
  /\ resolve Unobserved_Variational_Node getExpectation =
       Some (Unobserved_Variational_Node,
             Unobserved_Variational_Node_getExpectation)
  /\ forall d s q,
       node_attrs (self s) !! "Q" = Some (ODist q) ->
       (node_class (self s) = BernoulliGaussian_Unobserved_Variational_Node ->
        observe (invoke (S d) getExpectation s) =
          match dist_fields q !! "ESW" with
          | Some v => Ok (OVal v, self s)
          | None => Raise (AttributeError "ESW")
          end)
       /\ (unobserved (node_class (self s)) = true ->
           node_class (self s) <> BernoulliGaussian_Unobserved_Variational_Node ->
           observe (invoke (S d) getExpectation s) =
             match dist_fields q !! "E" with
             | Some v => Ok (OVal v, self s)
             | None => Raise (AttributeError "E")
             end).
Proof.
  split; [reflexivity|]. split; [reflexivity|].
  intros d s q HQ. split.
  - intros Hc.
    rewrite (invoke_getter d getExpectation s
               BernoulliGaussian_Unobserved_Variational_Node
               BernoulliGaussian_Unobserved_Variational_Node_getExpectation
               (ODist q) "ESW"); [| by rewrite Hc | reflexivity | assumption].
    destruct (dist_fields q !! "ESW"); reflexivity.
  - intros Hu Hc.
    assert (exists c b,
              resolve (node_class (self s)) getExpectation = Some (c, b)
              /\ forall call, b call =
                   (x ← getattr "Q"; e ← dist_getattr x "E"; mret (OVal e)))
      as (c & b & Hr & Hb).
    { destruct (node_class (self s)); try discriminate; try (by destruct Hc);
        eexists _, _; (split; [reflexivity|]); reflexivity. }
    rewrite (invoke_getter d getExpectation s c b (ODist q) "E" Hr Hb HQ).
    destruct (dist_fields q !! "E"); reflexivity.
Qed.

(** C4, the part the code misses.  The class statement of the
    multivariate Gaussian node defines no [getParameters]: on every such
    node the call runs the default of [Variational_Node] and returns
    [None], not a mapping with the keys [mean] and [cov]. *)
Theorem MultivariateGaussian_getParameters_is_None
    (d : nat) (attrs : gmap string object) (tr : list event) :
  methods MultivariateGaussian_Unobserved_Variational_Node getParameters = None
  /\ invoke (S d) getParameters
       {| self := {| node_class := MultivariateGaussian_Unobserved_Variational_Node;
                     node_attrs := attrs |};
          trace := tr |}
     = Ok (None_,
           {| self := {| node_class := MultivariateGaussian_Unobserved_Variational_Node;
                         node_attrs := attrs |};
              trace := tr ++ [Enter Variational_Node getParameters] |}).
Proof. split; reflexivity. Qed.

(** ** Construction *)

Lemma new_UnivariateGaussian_eq dim pmean pvar qmean qvar qE qE2 :
  new_UnivariateGaussian_Unobserved_Variational_Node dim pmean pvar qmean qvar qE qE2 =
    (p ← Distribution_init UnivariateGaussian dim {[ "mean" := pmean; "var" := pvar ]};
     q ← Distribution_init UnivariateGaussian dim
           {[ "mean" := qmean; "var" := qvar; "E" := qE; "E2" := qE2 ]};
     Ok {| node_class := UnivariateGaussian_Unobserved_Variational_Node;
           node_attrs := <["Q" := ODist q]> (<["P" := ODist p]> (unobserved_attrs dim)) |}).
Proof.
  unfold new_UnivariateGaussian_Unobserved_Variational_Node, instantiate,
    UnivariateGaussian_Unobserved_Variational_Node__init__.
  rewrite !bind_run. simpl.
  destruct (Distribution_init UnivariateGaussian dim {[ "mean" := pmean; "var" := pvar ]})
    as [p|e]; [|reflexivity].
  simpl. rewrite !bind_run. simpl.
  destruct (Distribution_init UnivariateGaussian dim _) as [q|e]; reflexivity.
Qed.

Lemma new_MultivariateGaussian_eq dim qmean qcov qE qE2 :
  new_MultivariateGaussian_Unobserved_Variational_Node dim qmean qcov qE qE2 =
    (q ← Distribution_init MultivariateGaussian dim
           {[ "mean" := qmean; "cov" := qcov; "E" := qE; "E2" := qE2 ]};
     Ok {| node_class := MultivariateGaussian_Unobserved_Variational_Node;
           node_attrs := <["Q" := ODist q]> (unobserved_attrs dim) |}).
Proof.
  unfold new_MultivariateGaussian_Unobserved_Variational_Node, instantiate,
    MultivariateGaussian_Unobserved_Variational_Node__init__.
  rewrite !bind_run. simpl.
  destruct (Distribution_init MultivariateGaussian dim _) as [q|e]; reflexivity.
Qed.

Lemma new_Gamma_eq dim pa pb qa qb qE :
  new_Gamma_Unobserved_Variational_Node dim pa pb qa qb qE =
    (p ← Distribution_init Gamma [1%nat] {[ "a" := pa; "b" := pb ]};
     q ← Distribution_init Gamma dim {[ "a" := qa; "b" := qb; "E" := qE ]};
     Ok {| node_class := Gamma_Unobserved_Variational_Node;
           node_attrs := <["Q" := ODist q]> (<["P" := ODist p]> (unobserved_attrs dim)) |}).
Proof.
  unfold new_Gamma_Unobserved_Variational_Node, instantiate,
    Gamma_Unobserved_Variational_Node__init__.
  rewrite !bind_run. simpl.
  destruct (Distribution_init Gamma [1%nat] {[ "a" := pa; "b" := pb ]})
    as [p|e]; [|reflexivity].
  simpl. rewrite !bind_run. simpl.
  destruct (Distribution_init Gamma dim _) as [q|e]; reflexivity.
Qed.

Lemma new_Bernoulli_eq dim ptheta qtheta qE :
  new_Bernoulli_Unobserved_Variational_Node dim ptheta qtheta qE =
    (p ← Distribution_init Bernoulli [1%nat] {[ "theta" := ptheta ]};
     q ← Distribution_init Bernoulli dim {[ "theta" := qtheta; "E" := qE ]};
     Ok {| node_class := Bernoulli_Unobserved_Variational_Node;
           node_attrs := <["Q" := ODist q]> (<["P" := ODist p]> (unobserved_attrs dim)) |}).
Proof.
  unfold new_Bernoulli_Unobserved_Variational_Node, instantiate,
    Bernoulli_Unobserved_Variational_Node__init__.
  rewrite !bind_run. simpl.
  destruct (Distribution_init Bernoulli [1%nat] {[ "theta" := ptheta ]})
    as [p|e]; [|reflexivity].
  simpl. rewrite !bind_run. simpl.
  destruct (Distribution_init Bernoulli dim _) as [q|e]; reflexivity.
Qed.

(** The node a successful spike-and-slab construction returns. *)
Lemma new_BernoulliGaussian_eq dim qmean qvar ptheta qtheta :
  new_BernoulliGaussian_Unobserved_Variational_Node dim qmean qvar ptheta qtheta =
    (broadcast ← ptheta_is_scalar ptheta;
     v ← (if broadcast : bool then
            k ← index dim 1; py_mul ptheta (ones k)
          else
            n ← py_len ptheta;
            k ← index dim 1;
            if decide (n = k) then Ok ptheta
            else Raise (AssertionError "ptheta dimension mismatch"));
     q ← Distribution_init BernoulliGaussian dim
           {[ "theta" := qtheta; "mean" := qmean; "var" := qvar ]};
     Ok {| node_class := BernoulliGaussian_Unobserved_Variational_Node;
           node_attrs := <["Q" := ODist q]>
                           (<["P_theta" := OVal v]> (unobserved_attrs dim)) |}).
Proof.
  unfold new_BernoulliGaussian_Unobserved_Variational_Node, instantiate,
    BernoulliGaussian_Unobserved_Variational_Node__init__.
  run_monad.
  destruct (ptheta_is_scalar ptheta) as [[|]|e]; run_monad; [| |reflexivity].
  - destruct (dim !! 1%nat) as [k|]; run_monad; [|reflexivity].
    destruct (py_mul ptheta (ones k)) as [v|e]; run_monad; [|reflexivity].
    destruct (Distribution_init BernoulliGaussian dim _) as [q|e]; reflexivity.
  - destruct (py_len ptheta) as [n|e]; run_monad; [|reflexivity].
    destruct (dim !! 1%nat) as [k|]; run_monad; [|reflexivity].
    destruct (decide (n = k)) as [E|E]; run_monad; [|reflexivity].
    destruct (Distribution_init BernoulliGaussian dim _) as [q|e]; reflexivity.
Qed.

(** What a successful spike-and-slab construction leaves in the node. *)
Lemma new_BernoulliGaussian_Ok dim qmean qvar ptheta qtheta n :
  new_BernoulliGaussian_Unobserved_Variational_Node dim qmean qvar ptheta qtheta = Ok n ->
  exists v q,
    Distribution_init BernoulliGaussian dim
      {[ "theta" := qtheta; "mean" := qmean; "var" := qvar ]} = Ok q
    /\ holds n "P" None_ /\ holds n "Q" (ODist q) /\ holds n "P_theta" (OVal v).
Proof.
  rewrite new_BernoulliGaussian_eq.
  destruct (ptheta_is_scalar ptheta) as [b|e]; [|discriminate]. simpl.
  destruct (if b then _ else _) as [v|e]; [|discriminate]. simpl.
  destruct (Distribution_init BernoulliGaussian dim _) as [q|e]; [|discriminate].
  simpl. intros [= <-]. exists v, q. unfold holds. simpl.
  repeat split; by simplify_map_eq.
Qed.

Lemma fmap_smul_ones (x : scalar) (k : nat) :
  smul x <$> ones k = replicate k x.
Proof.
  unfold ones. induction k as [|k IH]; simpl; [reflexivity|].
  rewrite smul_one_r. f_equal. exact IH.
Qed.

(** A float times [ones(k)]: [k] copies of the float. *)
Lemma py_mul_float_ones (x : scalar) (k : nat) :
  py_mul (VFloat x) (ones k) = Ok (VSeq (replicate k x)).
Proof. simpl. by rewrite fmap_smul_ones. Qed.

(** A sequence of length one times [ones(k)]: numpy stretches it to [k]
    copies of its entry, whatever [k] is. *)
Lemma py_mul_singleton_ones (x : scalar) (k : nat) :
  py_mul (VSeq [x]) (ones k) = Ok (VSeq (replicate k x)).
Proof.
  simpl. unfold broadcast_mul.
  destruct (decide (length [x] = length (ones k))) as [E|E].
  - unfold ones in *. rewrite length_replicate in E. simpl in E. subst k.
    simpl. by rewrite smul_one_r.
  - rewrite fmap_smul_ones. reflexivity.
Qed.

Lemma built_from_eq (construction : result node) (initP initQ : result Distribution)
    (c : class) (base : gmap string object) :
  construction =
    (p ← initP; q ← initQ;
     Ok {| node_class := c;
           node_attrs := <["Q" := ODist q]> (<["P" := ODist p]> base) |}) ->
  built_from construction initP initQ.
Proof.
  intros ->. split.
  - intros n. destruct initP as [p|e]; [|discriminate].
    destruct initQ as [q|e]; [|discriminate].
    intros [= <-]. exists p, q. unfold holds. simpl.
    repeat split; by simplify_map_eq.
  - intros p q -> ->. eexists. reflexivity.
Qed.

Lemma Gamma_built_from dim pa pb qa qb qE :
  built_from (new_Gamma_Unobserved_Variational_Node dim pa pb qa qb qE)
    (Distribution_init Gamma [1%nat] {[ "a" := pa; "b" := pb ]})
    (Distribution_init Gamma dim {[ "a" := qa; "b" := qb; "E" := qE ]}).
Proof. eapply built_from_eq, new_Gamma_eq. Qed.

Lemma Bernoulli_built_from dim ptheta qtheta qE :
  built_from (new_Bernoulli_Unobserved_Variational_Node dim ptheta qtheta qE)
    (Distribution_init Bernoulli [1%nat] {[ "theta" := ptheta ]})
    (Distribution_init Bernoulli dim {[ "theta" := qtheta; "E" := qE ]}).
Proof. eapply built_from_eq, new_Bernoulli_eq. Qed.

Lemma UnivariateGaussian_built_from dim pmean pvar qmean qvar qE qE2 :
  built_from
    (new_UnivariateGaussian_Unobserved_Variational_Node dim pmean pvar qmean qvar qE qE2)
    (Distribution_init UnivariateGaussian dim {[ "mean" := pmean; "var" := pvar ]})
    (Distribution_init UnivariateGaussian dim
       {[ "mean" := qmean; "var" := qvar; "E" := qE; "E2" := qE2 ]}).
Proof. eapply built_from_eq, new_UnivariateGaussian_eq. Qed.

Lemma built_from_holds (construction : result node) (initP initQ : result Distribution)
    (n : node) :
  built_from construction initP initQ ->
  construction = Ok n ->
  (exists p, holds n "P" (ODist p)) /\ (exists q, holds n "Q" (ODist q)).
Proof.
  intros [Hn _] Hc. destruct (Hn n Hc) as (p & q & _ & _ & Hp & Hq). eauto.
Qed.

(** C6. The Gamma node makes its prior by [Gamma(dim=(1,), a=pa, b=pb)]
    and its posterior with the [dim] of the node; the Bernoulli node makes
    its prior by [Bernoulli(dim=(1,), theta=ptheta)]; the univariate
    Gaussian node makes prior and posterior with the same [dim], that of
    the node. *)
Theorem prior_dimensionality_per_family :
  (forall dim pa pb qa qb qE,
     built_from (new_Gamma_Unobserved_Variational_Node dim pa pb qa qb qE)
       (Distribution_init Gamma [1%nat] {[ "a" := pa; "b" := pb ]})
       (Distribution_init Gamma dim {[ "a" := qa; "b" := qb; "E" := qE ]}))
  /\ (forall dim ptheta qtheta qE,
        built_from (new_Bernoulli_Unobserved_Variational_Node dim ptheta qtheta qE)
          (Distribution_init Bernoulli [1%nat] {[ "theta" := ptheta ]})
          (Distribution_init Bernoulli dim {[ "theta" := qtheta; "E" := qE ]}))
  /\ (forall dim pmean pvar qmean qvar qE qE2,
        built_from
          (new_UnivariateGaussian_Unobserved_Variational_Node
             dim pmean pvar qmean qvar qE qE2)
          (Distribution_init UnivariateGaussian dim
             {[ "mean" := pmean; "var" := pvar ]})
          (Distribution_init UnivariateGaussian dim
             {[ "mean" := qmean; "var" := qvar; "E" := qE; "E2" := qE2 ]})).
Proof.
  split; [|split]; intros.
  - apply Gamma_built_from.
  - apply Bernoulli_built_from.
  - apply UnivariateGaussian_built_from.
Qed.

(** C5, as the code has it.  After construction every family-specific
    node holds a Distribution in [Q].  The univariate Gaussian, Gamma and
    Bernoulli nodes hold one in [P] as well; the multivariate Gaussian and
    the spike-and-slab node leave [P] at [None], and the latter keeps the
    prior spike probability in [P_theta] instead. *)
Theorem family_nodes_hold_Q_and_some_hold_P :
  (forall dim pmean pvar qmean qvar qE qE2 n,
     new_UnivariateGaussian_Unobserved_Variational_Node
       dim pmean pvar qmean qvar qE qE2 = Ok n ->
     (exists p, holds n "P" (ODist p)) /\ (exists q, holds n "Q" (ODist q)))
  /\ (forall dim pa pb qa qb qE n,
        new_Gamma_Unobserved_Variational_Node dim pa pb qa qb qE = Ok n ->
        (exists p, holds n "P" (ODist p)) /\ (exists q, holds n "Q" (ODist q)))
  /\ (forall dim ptheta qtheta qE n,
        new_Bernoulli_Unobserved_Variational_Node dim ptheta qtheta qE = Ok n ->
        (exists p, holds n "P" (ODist p)) /\ (exists q, holds n "Q" (ODist q)))
  /\ (forall dim qmean qcov qE qE2 n,
        new_MultivariateGaussian_Unobserved_Variational_Node
          dim qmean qcov qE qE2 = Ok n ->
        holds n "P" None_ /\ (exists q, holds n "Q" (ODist q)))
  /\ (forall dim qmean qvar ptheta qtheta n,
        new_BernoulliGaussian_Unobserved_Variational_Node
          dim qmean qvar ptheta qtheta = Ok n ->
        holds n "P" None_ /\ (exists q, holds n "Q" (ODist q))
        /\ (exists v, holds n "P_theta" (OVal v))).
Proof.
  split; [|split; [|split; [|split]]].
  - intros dim pmean pvar qmean qvar qE qE2 n.
    eapply built_from_holds, UnivariateGaussian_built_from.
  - intros dim pa pb qa qb qE n.
    eapply built_from_holds, Gamma_built_from.
  - intros dim ptheta qtheta qE n.
    eapply built_from_holds, Bernoulli_built_from.
  - intros dim qmean qcov qE qE2 n. rewrite new_MultivariateGaussian_eq.
    destruct (Distribution_init MultivariateGaussian dim _) as [q|e]; [|discriminate].
    simpl. intros [= <-]. unfold holds. simpl.
    split; [|exists q]; by simplify_map_eq.
  - intros dim qmean qvar ptheta qtheta n Hn.
    apply new_BernoulliGaussian_Ok in Hn as (v & q & _ & HP & HQ & HT). eauto.
Qed.

(** ** The prior spike probability *)


(** C1, as the code has it.  With [dim = (N, K)]: a float [ptheta] is
    stored in [P_theta] as [K] copies of itself, as soon as the posterior
    can be built; a sequence whose length is neither 1 nor [K] makes the
    construction fail on its assertion. *)
Theorem BernoulliGaussian_init_P_theta (N K : nat) (qmean qvar qtheta : value) :
  (forall x q,
     Distribution_init BernoulliGaussian [N; K]
       {[ "theta" := qtheta; "mean" := qmean; "var" := qvar ]} = Ok q ->
     exists n,
       new_BernoulliGaussian_Unobserved_Variational_Node
         [N; K] qmean qvar (VFloat x) qtheta = Ok n
       /\ holds n "P_theta" (OVal (VSeq (replicate K x))))
  /\ (forall x e,
        Distribution_init BernoulliGaussian [N; K]
          {[ "theta" := qtheta; "mean" := qmean; "var" := qvar ]} = Raise e ->
        new_BernoulliGaussian_Unobserved_Variational_Node
          [N; K] qmean qvar (VFloat x) qtheta = Raise e)
  /\ (forall xs,
        length xs <> 1%nat -> length xs <> K ->
        new_BernoulliGaussian_Unobserved_Variational_Node
          [N; K] qmean qvar (VSeq xs) qtheta
        = Raise (AssertionError "ptheta dimension mismatch")).
Proof.
  split; [|split].
  - intros x q Hq. rewrite new_BernoulliGaussian_eq. simpl.
    rewrite fmap_smul_ones. simpl. rewrite Hq. simpl.
    eexists. split; [reflexivity|]. unfold holds. simpl. by simplify_map_eq.
  - intros x e He. rewrite new_BernoulliGaussian_eq. simpl.
    rewrite He. reflexivity.
  - intros xs H1 HK. rewrite new_BernoulliGaussian_eq.
    unfold ptheta_is_scalar. simpl.
    rewrite bool_decide_eq_false_2 by assumption. simpl.
    destruct (decide (length xs = K)) as [E|E]; [contradiction|reflexivity].
Qed.


(** ** Key sets of the mappings *)

Lemma field_present (q : Distribution) (a : string) (keys : gset string) :
  keys ⊆ dom (dist_fields q) -> a ∈ keys ->
  exists v, dist_fields q !! a = Some v.
Proof.
  intros Hsub Ha. apply Hsub in Ha. apply elem_of_dom in Ha as [v Hv]. eauto.
Qed.

(** X1. On the four family nodes whose class statement defines
    [getParameters], the call returns a mapping whose keys are exactly
    the documented ones, as soon as [Q] has those fields; the node is left
    as it was. *)
Lemma getParameters_keys (d : nat) (s : state) (q : Distribution) :
  family_specific (node_class (self s)) = true ->
  node_class (self s) <> MultivariateGaussian_Unobserved_Variational_Node ->
  node_attrs (self s) !! "Q" = Some (ODist q) ->
  documented_parameters (node_class (self s)) ⊆ dom (dist_fields q) ->
  exists m,
    observe (invoke (S d) getParameters s) = Ok (ODict m, self s)
    /\ dom m = documented_parameters (node_class (self s)).
Proof.
  intros Hf Hc HQ Hk. rewrite invoke_S.
  destruct (node_class (self s)); try discriminate; try (by destruct Hc);
    cbn [documented_parameters] in *.
  - destruct (field_present q "mean" _ Hk) as [v1 H1]; [set_solver|].
    destruct (field_present q "var" _ Hk) as [v2 H2]; [set_solver|].
    cbn [resolve mro ancestors parent find_method methods].
    unfold UnivariateGaussian_Unobserved_Variational_Node_getParameters.
    run_monad. unfold emit, getattr, dist_getattr. cbn [self trace].
    repeat (cbn [self trace]; cbv beta iota;
            first [rewrite HQ | rewrite H1 | rewrite H2]).
    eexists. split; [reflexivity|]. set_solver.
  - destruct (field_present q "a" _ Hk) as [v1 H1]; [set_solver|].
    destruct (field_present q "b" _ Hk) as [v2 H2]; [set_solver|].
    cbn [resolve mro ancestors parent find_method methods].
    unfold Gamma_Unobserved_Variational_Node_getParameters.
    run_monad. unfold emit, getattr, dist_getattr. cbn [self trace].
    repeat (cbn [self trace]; cbv beta iota;
            first [rewrite HQ | rewrite H1 | rewrite H2]).
    eexists. split; [reflexivity|]. set_solver.
  - destruct (field_present q "theta" _ Hk) as [v1 H1]; [set_solver|].
    cbn [resolve mro ancestors parent find_method methods].
    unfold Bernoulli_Unobserved_Variational_Node_getParameters.
    run_monad. unfold emit, getattr, dist_getattr. cbn [self trace].
    repeat (cbn [self trace]; cbv beta iota; first [rewrite HQ | rewrite H1]).
    eexists. split; [reflexivity|]. set_solver.
  - destruct (field_present q "theta" _ Hk) as [v1 H1]; [set_solver|].
    destruct (field_present q "mean" _ Hk) as [v2 H2]; [set_solver|].
    destruct (field_present q "var" _ Hk) as [v3 H3]; [set_solver|].
    cbn [resolve mro ancestors parent find_method methods].
    unfold BernoulliGaussian_Unobserved_Variational_Node_getParameters.
    run_monad. unfold emit, getattr, dist_getattr. cbn [self trace].
    repeat (cbn [self trace]; cbv beta iota;
            first [rewrite HQ | rewrite H1 | rewrite H2 | rewrite H3]).
    eexists. split; [reflexivity|]. set_solver.
Qed.

(** X2. On the four family nodes whose class statement defines
    [getExpectations], the call returns a mapping whose keys are exactly
    the documented moments, as soon as [Q] has those fields. *)
Lemma getExpectations_keys (d : nat) (s : state) (q : Distribution) :
  family_specific (node_class (self s)) = true ->
  node_class (self s) <> BernoulliGaussian_Unobserved_Variational_Node ->
  node_attrs (self s) !! "Q" = Some (ODist q) ->
  documented_expectations (node_class (self s)) ⊆ dom (dist_fields q) ->
  exists m,
    observe (invoke (S d) getExpectations s) = Ok (ODict m, self s)
    /\ dom m = documented_expectations (node_class (self s)).
Proof.
  intros Hf Hc HQ Hk. rewrite invoke_S.
  destruct (node_class (self s)); try discriminate; try (by destruct Hc);
    cbn [documented_expectations] in *.
  - destruct (field_present q "E" _ Hk) as [v1 H1]; [set_solver|].
    destruct (field_present q "E2" _ Hk) as [v2 H2]; [set_solver|].
    cbn [resolve mro ancestors parent find_method methods].
    unfold UnivariateGaussian_Unobserved_Variational_Node_getExpectations.
    run_monad. unfold emit, getattr, dist_getattr.
    repeat (cbn [self trace]; cbv beta iota;
            first [rewrite HQ | rewrite H1 | rewrite H2]).
    eexists. split; [reflexivity|]. set_solver.
  - destruct (field_present q "E" _ Hk) as [v1 H1]; [set_solver|].
    destruct (field_present q "E2" _ Hk) as [v2 H2]; [set_solver|].
    cbn [resolve mro ancestors parent find_method methods].
    unfold MultivariateGaussian_Unobserved_Variational_Node_getExpectations.
    run_monad. unfold emit, getattr, dist_getattr.
    repeat (cbn [self trace]; cbv beta iota;
            first [rewrite HQ | rewrite H1 | rewrite H2]).
    eexists. split; [reflexivity|]. set_solver.
  - destruct (field_present q "E" _ Hk) as [v1 H1]; [set_solver|].
    destruct (field_present q "lnE" _ Hk) as [v2 H2]; [set_solver|].
    cbn [resolve mro ancestors parent find_method methods].
    unfold Gamma_Unobserved_Variational_Node_getExpectations.
    run_monad. unfold emit, getattr, dist_getattr.
    repeat (cbn [self trace]; cbv beta iota;
            first [rewrite HQ | rewrite H1 | rewrite H2]).
    eexists. split; [reflexivity|]. set_solver.
  - destruct (field_present q "E" _ Hk) as [v1 H1]; [set_solver|].
    cbn [resolve mro ancestors parent find_method methods].
    unfold Bernoulli_Unobserved_Variational_Node_getExpectations.
    run_monad. unfold emit, getattr, dist_getattr.
    repeat (cbn [self trace]; cbv beta iota; first [rewrite HQ | rewrite H1]).
    eexists. split; [reflexivity|]. set_solver.
Qed.

(** ** Defaults inherited from the base classes *)

(** X3. No class overrides [calculateELBO]: on every node the call returns
    the float zero and leaves the node as it was. *)
Lemma calculateELBO_is_zero (d : nat) (s : state) :
  resolve (node_class (self s)) calculateELBO =
    Some (Variational_Node, Variational_Node_calculateELBO)
  /\ observe (invoke (S d) calculateELBO s) = Ok (OVal (VFloat zero), self s).
Proof.
  rewrite invoke_S. destruct (node_class (self s)); split; reflexivity.
Qed.

(** The spike-and-slab node defines no [getExpectations]: the call
    runs the default of [Variational_Node] and returns [None]. *)
Lemma BernoulliGaussian_getExpectations_is_None
    (d : nat) (attrs : gmap string object) (tr : list event) :
  methods BernoulliGaussian_Unobserved_Variational_Node getExpectations = None
  /\ observe (invoke (S d) getExpectations
                {| self := {| node_class := BernoulliGaussian_Unobserved_Variational_Node;
                              node_attrs := attrs |};
                   trace := tr |})
     = Ok (None_, {| node_class := BernoulliGaussian_Unobserved_Variational_Node;
                     node_attrs := attrs |}).
Proof. split; reflexivity. Qed.

(** X5. A direct instance of [Unobserved_Variational_Node] holds [None]
    in both [P] and [Q]; [updateExpectations()] and [update()] on it raise
    the [AttributeError] of calling a method on [None]. *)
Lemma Unobserved_Variational_Node_is_abstract (dim : list nat) :
  exists n,
    new_Unobserved_Variational_Node dim = Ok n
    /\ holds n "P" None_ /\ holds n "Q" None_
    /\ forall d tr,
         invoke (S d) updateExpectations {| self := n; trace := tr |}
           = Raise (AttributeError "updateExpectations")
         /\ invoke (S (S d)) update {| self := n; trace := tr |}
              = Raise (AttributeError "updateExpectations").
Proof.
  eexists. split; [reflexivity|]. split; [reflexivity|]. split; [reflexivity|].
  intros d tr. split; reflexivity.
Qed.

(** ** What the methods leave alone *)

Lemma preserves_self_ret {A : Type} (a : A) : preserves_self (mret a).
Proof. intros s a' s' [= _ <-]. reflexivity. Qed.

Lemma preserves_self_bind {A B : Type} (c : M A) (f : A -> M B) :
  preserves_self c -> (forall a, preserves_self (f a)) -> preserves_self (c ≫= f).
Proof.
  intros Hc Hf s b s'. rewrite bind_run.
  destruct (c s) as [[a s1]|e] eqn:E; [|discriminate].
  intros Hb. rewrite (Hf a _ _ _ Hb). exact (Hc _ _ _ E).
Qed.

Lemma preserves_self_emit (e : event) : preserves_self (emit e).
Proof. intros s a s' [= _ <-]. reflexivity. Qed.

Lemma preserves_self_getattr (a : string) : preserves_self (getattr a).
Proof.
  intros s o s'. unfold getattr.
  destruct (node_attrs (self s) !! a); [|discriminate].
  intros [= _ <-]. reflexivity.
Qed.

Lemma preserves_self_dist_getattr (q : object) (a : string) :
  preserves_self (dist_getattr q a).
Proof.
  intros s v s'. unfold dist_getattr.
  destruct q as [x|t|d|m]; try discriminate.
  destruct (dist_fields d !! a); [|discriminate].
  intros [= _ <-]. reflexivity.
Qed.

Create HintDb readers.
#[local] Hint Resolve preserves_self_ret preserves_self_emit preserves_self_getattr
  preserves_self_dist_getattr : readers.
#[local] Hint Extern 1 (preserves_self (_ ≫= _)) =>
  apply preserves_self_bind; [|intro] : readers.

(** Every method other than [update] and [updateExpectations], at any
    depth of the call stack, only reads. *)
Lemma readers_preserve_self (depth : nat) (m : meth) :
  reader m = true -> preserves_self (invoke depth m).
Proof.
  revert m. induction depth as [|d IH]; intros m Hm.
  - intros s a s'. discriminate.
  - intros s a s'. rewrite invoke_S.
    destruct (resolve (node_class (self s)) m) as [[c b]|] eqn:Hr; [|discriminate].
    assert (preserves_self (emit (Enter c m) ;; b (invoke d))) as Hb; [|apply Hb].
    apply preserves_self_bind; [apply preserves_self_emit|]. intros _.
    pose proof (IH getObservations eq_refl) as Hobs.
    destruct (node_class (self s)), m; try discriminate;
      cbn in Hr; injection Hr as <- <-;
      cbv delta [Variational_Node_calculateELBO Variational_Node_getExpectation
                 Variational_Node_updateParameters
                 Variational_Node_getExpectations Variational_Node_getParameters
                 Observed_Variational_Node_getObservations
                 Observed_Variational_Node_getExpectation
                 Unobserved_Variational_Node_getExpectation
                 UnivariateGaussian_Unobserved_Variational_Node_getParameters
                 UnivariateGaussian_Unobserved_Variational_Node_getExpectations
                 MultivariateGaussian_Unobserved_Variational_Node_getExpectations
                 Gamma_Unobserved_Variational_Node_getParameters
                 Gamma_Unobserved_Variational_Node_getExpectations
                 Bernoulli_Unobserved_Variational_Node_getParameters
                 Bernoulli_Unobserved_Variational_Node_getExpectation
                 Bernoulli_Unobserved_Variational_Node_getExpectations
                 BernoulliGaussian_Unobserved_Variational_Node_getParameters
                 BernoulliGaussian_Unobserved_Variational_Node_getExpectation] beta;
      auto 12 with readers.
Qed.

(** X6. No method ever changes the class of a node or any attribute
    other than [Q]; and every method other than [update] and
    [updateExpectations] returns with the node exactly as it was. *)
Lemma methods_change_at_most_Q (d : nat) (m : meth) (s s' : state) (r : object) :
  invoke (S (S d)) m s = Ok (r, s') ->
  node_class (self s') = node_class (self s)
  /\ (forall a, a <> "Q" -> node_attrs (self s') !! a = node_attrs (self s) !! a)
  /\ (reader m = true -> self s' = self s).
Proof.
  intros Hrun.
  destruct (reader m) eqn:Hm.
  - rewrite (readers_preserve_self _ m Hm _ _ _ Hrun). auto.
  - destruct m; try discriminate.
    + rewrite invoke_updateExpectations in Hrun.
      apply updateExpectations_frame in Hrun as (_ & Hc & Ha & _).
      repeat split; [exact Hc|exact Ha|discriminate].
    + rewrite invoke_update in Hrun.
      destruct (updateExpectations_outcome _) as [[r1 s2]|e] eqn:E; [|discriminate].
      injection Hrun as <- <-.
      apply updateExpectations_frame in E as (_ & Hc & Ha & _).
      repeat split; [exact Hc|exact Ha|discriminate].
Qed.

(** ** Outcomes of [update()] *)

(** X7. [update()] returns on a node that is not below
    [Unobserved_Variational_Node], leaving it as it was; below it, the
    call needs a Distribution in [Q]: a missing [Q] raises the
    [AttributeError] of [Q], any other object in [Q] that of
    [updateExpectations], an exception of [Q.updateExpectations()] comes
    through unchanged, and a result of it becomes the new [Q]. *)
Lemma update_outcomes (d : nat) (s : state) :
  (unobserved (node_class (self s)) = false ->
   observe (invoke (S (S d)) update s) = Ok (None_, self s))
  /\ (unobserved (node_class (self s)) = true ->
      (node_attrs (self s) !! "Q" = None ->
       invoke (S (S d)) update s = Raise (AttributeError "Q"))
      /\ (forall o, node_attrs (self s) !! "Q" = Some o ->
            (forall q, o <> ODist q) ->
            invoke (S (S d)) update s = Raise (AttributeError "updateExpectations"))
      /\ (forall q e, node_attrs (self s) !! "Q" = Some (ODist q) ->
            Distribution_updateExpectations q = Raise e ->
            invoke (S (S d)) update s = Raise e)
      /\ (forall q q', node_attrs (self s) !! "Q" = Some (ODist q) ->
            Distribution_updateExpectations q = Ok q' ->
            observe (invoke (S (S d)) update s)
            = Ok (None_, set_attr (self s) "Q" (ODist q')))).
Proof.
  rewrite invoke_update. unfold updateExpectations_outcome, logged. cbn [self trace].
  split.
  - intros ->. reflexivity.
  - intros ->. repeat split.
    + intros ->. reflexivity.
    + intros o -> Ho. destruct o as [v|t|q|m]; try reflexivity.
      by destruct (Ho q).
    + intros q e -> ->. reflexivity.
    + intros q q' -> ->. reflexivity.
Qed.

(** ** Methods that exist on some classes only *)

(** X8. [getObservations] is the one method that not every class has:
    it resolves on [Observed_Variational_Node] alone.  On any other node
    the call raises an [AttributeError]; on an observed node it returns
    the attribute [obs] and leaves the node as it was. *)
Lemma getObservations_on_observed_only :
  (forall c m, resolve c m = None <->
               m = getObservations /\ c <> Observed_Variational_Node)
  /\ (forall d s,
        node_class (self s) <> Observed_Variational_Node ->
        invoke (S d) getObservations s = Raise (AttributeError "getObservations"))
  /\ (forall d s,
        node_class (self s) = Observed_Variational_Node ->
        observe (invoke (S d) getObservations s) =
          match node_attrs (self s) !! "obs" with
          | Some o => Ok (o, self s)
          | None => Raise (AttributeError "obs")
          end).
Proof.
  assert (forall c m, resolve c m = None <->
                      m = getObservations /\ c <> Observed_Variational_Node) as Hres.
  { intros c m. split.
    - destruct c, m; try discriminate; intros _; split; try reflexivity; discriminate.
    - intros [-> Hc]. destruct c; try reflexivity. by destruct Hc. }
  split; [exact Hres|]. split.
  - intros d s Hc. rewrite invoke_S.
    rewrite (proj2 (Hres _ getObservations) (conj eq_refl Hc)). reflexivity.
  - intros d s Hc. rewrite invoke_S, Hc.
    cbn [resolve mro ancestors parent find_method methods].
    rewrite bind_run. unfold emit, Observed_Variational_Node_getObservations, getattr.
    cbn [self trace].
    destruct (node_attrs (self s) !! "obs"); reflexivity.
Qed.

(** ** Mappings read off the posterior *)

(** [self.Q.a] followed by the rest of a body, on a node with a
    Distribution in [Q]. *)
Lemma read_Q_field {B : Type} (a : string) (k : value -> M B) (s : state)
    (q : Distribution) :
  node_attrs (self s) !! "Q" = Some (ODist q) ->
  (getattr "Q" ≫= fun q0 => dist_getattr q0 a ≫= k) s =
    match dist_fields q !! a with
    | Some v => k v s
    | None => Raise (AttributeError a)
    end.
Proof.
  intros HQ. rewrite bind_run. unfold getattr. rewrite HQ.
  rewrite bind_run. unfold dist_getattr.
  destruct (dist_fields q !! a); reflexivity.
Qed.

(** A mapping-valued method, on a node with a Distribution in [Q], reads
    its fields in order and returns them under their own names. *)
Lemma dict_getter_outcome (d : nat) (m : meth) (s : state) (q : Distribution) :
  dict_fields (node_class (self s)) m <> [] ->
  node_attrs (self s) !! "Q" = Some (ODist q) ->
  invoke (S d) m s =
    match read_fields (dict_fields (node_class (self s)) m) (dist_fields q) with
    | Ok mp => Ok (ODict mp, logged s [Enter (node_class (self s)) m])
    | Raise e => Raise e
    end.
Proof.
  intros Hks HQ. rewrite invoke_S.
  destruct (node_class (self s)) eqn:Hc, m; try (by destruct Hks); clear Hks;
    cbn [resolve mro ancestors parent find_method methods dict_fields read_fields];
    rewrite bind_run; unfold emit; cbn [self trace].
  all: cbv delta [UnivariateGaussian_Unobserved_Variational_Node_getParameters
                  UnivariateGaussian_Unobserved_Variational_Node_getExpectations
                  MultivariateGaussian_Unobserved_Variational_Node_getExpectations
                  Gamma_Unobserved_Variational_Node_getParameters
                  Gamma_Unobserved_Variational_Node_getExpectations
                  Bernoulli_Unobserved_Variational_Node_getParameters
                  Bernoulli_Unobserved_Variational_Node_getExpectations
                  BernoulliGaussian_Unobserved_Variational_Node_getParameters] beta.
  all: repeat (first [ rewrite (read_Q_field _ _ _ q) by exact HQ
                     | match goal with
                       | |- context [dist_fields ?x !! ?a] =>
                           destruct (dist_fields x !! a)
                       end ]).
  all: reflexivity.
Qed.

Lemma read_fields_Ok (ks : list string) (f mp : gmap string value) :
  read_fields ks f = Ok mp ->
  dom mp = list_to_set ks /\ mp ⊆ f /\ Forall (fun k => is_Some (f !! k)) ks.
Proof.
  revert mp. induction ks as [|k ks IH]; intros mp; simpl.
  - intros [= <-]. split; [by rewrite dom_empty_L|].
    split; [apply map_empty_subseteq|constructor].
  - destruct (f !! k) as [v|] eqn:Hk; [|discriminate].
    destruct (read_fields ks f) as [mp'|e]; [|discriminate].
    intros [= <-]. destruct (IH mp' eq_refl) as (Hd & Hs & Ha).
    split; [by rewrite dom_insert_L, Hd|].
    split; [by apply insert_subseteq_l|].
    constructor; [by rewrite Hk|exact Ha].
Qed.

Lemma read_fields_Raise (ks : list string) (f : gmap string value) (e : exn) :
  read_fields ks f = Raise e ->
  exists pre a post,
    ks = pre ++ a :: post
    /\ Forall (fun k => is_Some (f !! k)) pre
    /\ f !! a = None /\ e = AttributeError a.
Proof.
  induction ks as [|k ks IH]; simpl; [discriminate|].
  destruct (f !! k) as [v|] eqn:Hk.
  - destruct (read_fields ks f) as [mp'|e'] eqn:E; [discriminate|].
    intros [= <-]. destruct (IH eq_refl) as (pre & a & post & -> & Hp & Ha & He).
    exists (k :: pre), a, post. split; [reflexivity|].
    split; [constructor; [by rewrite Hk|exact Hp]|]. split; assumption.
  - intros [= <-]. exists [], k, ks. repeat split; [constructor|exact Hk].
Qed.

(** X9. A mapping-valued [getParameters()] or [getExpectations()], on a
    node with a Distribution in [Q], returns exactly when [Q] has every
    field the method reads.  The mapping it returns has those names for
    keys, binds each to the value [Q] holds under that name, and the node
    is left as it was. *)
Lemma mapping_getters_read_Q (d : nat) (m : meth) (s : state) (q : Distribution) :
  dict_fields (node_class (self s)) m <> [] ->
  node_attrs (self s) !! "Q" = Some (ODist q) ->
  (Forall (fun k => is_Some (dist_fields q !! k)) (dict_fields (node_class (self s)) m)
   <-> exists r s', invoke (S d) m s = Ok (r, s'))
  /\ forall r s',
       invoke (S d) m s = Ok (r, s') ->
       self s' = self s
       /\ exists mp,
            r = ODict mp
            /\ dom mp = list_to_set (dict_fields (node_class (self s)) m)
            /\ mp ⊆ dist_fields q.
Proof.
  intros Hks HQ. rewrite (dict_getter_outcome d m s q Hks HQ).
  destruct (read_fields _ _) as [mp|e] eqn:E.
  - destruct (read_fields_Ok _ _ _ E) as (Hd & Hs & Ha). split.
    + split; [eauto|intros _; exact Ha].
    + intros r s' [= <- <-]. split; [reflexivity|]. eauto.
  - destruct (read_fields_Raise _ _ _ E) as (pre & a & post & Hsplit & _ & Ha & _).
    split.
    + split; [|intros (r & s' & [=])].
      intros Hall. rewrite Hsplit in Hall.
      apply Forall_app in Hall as [_ Hall]. apply Forall_cons in Hall as [[v Hv] _].
      rewrite Ha in Hv. discriminate.
    + intros r s' [=].
Qed.

(** X10. When [Q] lacks a field such a method reads, the call raises the
    [AttributeError] of the first missing field in the order of the dict
    display; and it raises nothing else. *)
Lemma mapping_getters_first_missing_field (d : nat) (m : meth) (s : state)
    (q : Distribution) (e : exn) :
  dict_fields (node_class (self s)) m <> [] ->
  node_attrs (self s) !! "Q" = Some (ODist q) ->
  invoke (S d) m s = Raise e ->
  exists pre a post,
    dict_fields (node_class (self s)) m = pre ++ a :: post
    /\ Forall (fun k => is_Some (dist_fields q !! k)) pre
    /\ dist_fields q !! a = None
    /\ e = AttributeError a.
Proof.
  intros Hks HQ. rewrite (dict_getter_outcome d m s q Hks HQ).
  destruct (read_fields _ _) as [mp|e'] eqn:E; [discriminate|].
  intros [= <-]. exact (read_fields_Raise _ _ _ E).
Qed.

(** ** Composing [update()] with itself and with the getters *)

Lemma dict_fields_unobserved (c : class) (m : meth) :
  dict_fields c m <> [] -> unobserved c = true.
Proof. destruct c, m; intros H; try reflexivity; by destruct H. Qed.

(** X11. After an [update()] that returned, a mapping-valued
    [getParameters()] or [getExpectations()] reads the distribution that
    [Q.updateExpectations()] made of the old [Q]: every binding it returns
    is a field of that refreshed distribution. *)
Lemma update_then_mapping_getter (d d' : nat) (m : meth) (s s1 : state)
    (r : object) (q : Distribution) :
  dict_fields (node_class (self s)) m <> [] ->
  node_attrs (self s) !! "Q" = Some (ODist q) ->
  invoke (S (S d)) update s = Ok (r, s1) ->
  exists q',
    Distribution_updateExpectations q = Ok q'
    /\ node_attrs (self s1) !! "Q" = Some (ODist q')
    /\ forall r2 s2,
         invoke (S d') m s1 = Ok (r2, s2) ->
         self s2 = self s1
         /\ exists mp,
              r2 = ODict mp
              /\ dom mp = list_to_set (dict_fields (node_class (self s)) m)
              /\ mp ⊆ dist_fields q'.
Proof.
  intros Hks HQ. rewrite invoke_update.
  unfold updateExpectations_outcome, logged. cbn [self trace].
  rewrite (dict_fields_unobserved _ _ Hks), HQ.
  destruct (Distribution_updateExpectations q) as [q'|e]; [|discriminate].
  intros [= <- <-]. exists q'. split; [reflexivity|].
  cbn [self set_attr node_attrs node_class]. rewrite lookup_insert_eq.
  split; [reflexivity|]. intros r2 s2.
  match goal with
  | |- invoke _ _ ?s1 = _ -> _ =>
      rewrite (dict_getter_outcome d' m s1 q' Hks (lookup_insert_eq _ _ _))
  end.
  cbn [self set_attr node_class].
  destruct (read_fields _ _) as [mp|e] eqn:E; [|discriminate].
  intros [= <- <-]. split; [reflexivity|].
  destruct (read_fields_Ok _ _ _ E) as (Hd & Hs & _). eauto.
Qed.

(** X12. When the distribution's [updateExpectations()] is a pure
    recomputation, [update()] is idempotent on the node: a second
    [update()] right after one that returned returns as well and leaves
    the node as the first one left it. *)
Lemma update_twice_same_node :
  pure_recomputation ->
  forall d s r s1,
    invoke (S (S d)) update s = Ok (r, s1) ->
    exists s2, invoke (S (S d)) update s1 = Ok (r, s2) /\ self s2 = self s1.
Proof.
  intros [f Hf] d s r s1. rewrite !invoke_update.
  unfold updateExpectations_outcome, logged. cbn [self trace].
  destruct (unobserved (node_class (self s))) eqn:Hc.
  - destruct (node_attrs (self s) !! "Q") as [[v|t|q|m]|]; try discriminate.
    rewrite (Hf q).
    destruct (f (dist_class q) (dist_dim q) (dist_params q)) as [mo|e] eqn:Hm;
      [|discriminate].
    cbn [mbind result_bind]. intros [= <- <-].
    cbn [self set_attr node_class node_attrs]. rewrite Hc, lookup_insert_eq, Hf.
    cbn [dist_class dist_dim dist_params]. rewrite Hm. cbn [mbind result_bind].
    eexists. split; [reflexivity|].
    cbn [self]. unfold set_attr. cbn [node_class node_attrs].
    by rewrite insert_insert_eq.
  - intros [= <- <-]. cbn [self]. rewrite Hc. eexists. split; reflexivity.
Qed.

(** ** More on the spike-and-slab constructor *)

(** X13. The spike-and-slab constructor refuses its arguments before it
    ever builds the posterior: [None] or an int for [ptheta] raises a
    [TypeError] whatever [dim] is, and a [dim] with fewer than two entries
    raises an [IndexError] for every float or sequence [ptheta]. *)
Lemma BernoulliGaussian_init_argument_errors (dim : list nat)
    (qmean qvar qtheta : value) :
  (forall ptheta,
     ptheta = VNone \/ (exists z, ptheta = VInt z) ->
     new_BernoulliGaussian_Unobserved_Variational_Node dim qmean qvar ptheta qtheta
     = Raise TypeError)
  /\ (dim !! 1%nat = None ->
      forall ptheta,
        (exists x, ptheta = VFloat x) \/ (exists xs, ptheta = VSeq xs) ->
        new_BernoulliGaussian_Unobserved_Variational_Node dim qmean qvar ptheta qtheta
        = Raise IndexError).
Proof.
  split.
  - intros ptheta [-> | [z ->]]; rewrite new_BernoulliGaussian_eq; reflexivity.
  - intros Hd ptheta [[x ->] | [xs ->]]; rewrite new_BernoulliGaussian_eq;
      unfold ptheta_is_scalar, index; rewrite Hd; cbn.
    + reflexivity.
    + destruct (bool_decide (length xs = 1%nat)); reflexivity.
Qed.

(** X14. A sequence [ptheta] whose length is [dim[1]] is stored in
    [P_theta] as it is, entry for entry, once the posterior can be
    built. *)
Lemma BernoulliGaussian_init_keeps_matching_sequence (dim : list nat) (K : nat)
    (qmean qvar qtheta : value) (xs : list scalar) (q : Distribution) :
  dim !! 1%nat = Some K ->
  length xs = K ->
  Distribution_init BernoulliGaussian dim
    {[ "theta" := qtheta; "mean" := qmean; "var" := qvar ]} = Ok q ->
  exists n,
    new_BernoulliGaussian_Unobserved_Variational_Node dim qmean qvar (VSeq xs) qtheta
    = Ok n
    /\ holds n "P_theta" (OVal (VSeq xs)).
Proof.
  intros HK Hlen Hq. rewrite new_BernoulliGaussian_eq.
  unfold ptheta_is_scalar, index. rewrite HK. cbn [type_is_float py_len mbind result_bind].
  destruct (bool_decide (length xs = 1%nat)) eqn:H1.
  - apply bool_decide_eq_true in H1.
    destruct xs as [|x [|y xs]]; try discriminate.
    simpl in Hlen. subst K.
    rewrite py_mul_singleton_ones. cbn [mbind result_bind replicate]. rewrite Hq.
    cbn [mbind result_bind]. eexists. split; [reflexivity|].
    unfold holds. cbn [node_attrs]. by simplify_map_eq.
  - cbn [mbind result_bind]. destruct (decide (length xs = K)) as [_|E];
      [|contradiction].
    rewrite Hq. cbn [mbind result_bind]. eexists. split; [reflexivity|].
    unfold holds. cbn [node_attrs]. by simplify_map_eq.
Qed.

(** ** Exceptions of the Distribution constructors *)

Lemma propagates_eq (construction : result node) (initP initQ : result Distribution)
    (c : class) (base : gmap string object) :
  construction =
    (p ← initP; q ← initQ;
     Ok {| node_class := c;
           node_attrs := <["Q" := ODist q]> (<["P" := ODist p]> base) |}) ->
  propagates construction initP initQ.
Proof. intros ->. split; [intros e ->|intros p e -> ->]; reflexivity. Qed.

(** X15. The constructors with a prior build it before the posterior and
    hand on the exception of the first Distribution constructor that
    fails; the multivariate Gaussian constructor hands on that of its
    posterior. *)
Lemma constructors_propagate_exceptions :
  (forall dim pmean pvar qmean qvar qE qE2,
     propagates
       (new_UnivariateGaussian_Unobserved_Variational_Node
          dim pmean pvar qmean qvar qE qE2)
       (Distribution_init UnivariateGaussian dim {[ "mean" := pmean; "var" := pvar ]})
       (Distribution_init UnivariateGaussian dim
          {[ "mean" := qmean; "var" := qvar; "E" := qE; "E2" := qE2 ]}))
  /\ (forall dim pa pb qa qb qE,
        propagates (new_Gamma_Unobserved_Variational_Node dim pa pb qa qb qE)
          (Distribution_init Gamma [1%nat] {[ "a" := pa; "b" := pb ]})
          (Distribution_init Gamma dim {[ "a" := qa; "b" := qb; "E" := qE ]}))
  /\ (forall dim ptheta qtheta qE,
        propagates (new_Bernoulli_Unobserved_Variational_Node dim ptheta qtheta qE)
          (Distribution_init Bernoulli [1%nat] {[ "theta" := ptheta ]})
          (Distribution_init Bernoulli dim {[ "theta" := qtheta; "E" := qE ]}))
  /\ (forall dim qmean qcov qE qE2 e,
        Distribution_init MultivariateGaussian dim
          {[ "mean" := qmean; "cov" := qcov; "E" := qE; "E2" := qE2 ]} = Raise e ->
        new_MultivariateGaussian_Unobserved_Variational_Node dim qmean qcov qE qE2
        = Raise e).
Proof.
  split; [|split; [|split]]; intros.
  - eapply propagates_eq, new_UnivariateGaussian_eq.
  - eapply propagates_eq, new_Gamma_eq.
  - eapply propagates_eq, new_Bernoulli_eq.
  - rewrite new_MultivariateGaussian_eq.
    match goal with H : _ = Raise _ |- _ => rewrite H end. reflexivity.
Qed.

(** ** Depth of the call stack *)

(** A method that calls no other method of [self] needs one frame. *)
Lemma invoke_leaf (d : nat) (m : meth) (s : state) :
  m <> update ->
  ~ (m = getExpectation /\ node_class (self s) = Observed_Variational_Node) ->
  invoke (S d) m s = invoke 1 m s.
Proof.
  intros Hu Ho. rewrite !invoke_S.
  destruct (node_class (self s)), m; try reflexivity;
    try (by destruct Hu); by destruct Ho.
Qed.

(** X16. No method of the file recurses: the outcome of a call does not
    depend on how deep the stack may grow beyond two frames.  Two frames
    are used by [update()] and by [getExpectation()] of an observed node,
    which call another method of [self]. *)
Lemma two_frames_suffice :
  (forall d m s, invoke (S (S d)) m s = invoke 2 m s)
  /\ (forall s, invoke 1 update s = Raise RecursionError)
  /\ (forall s, node_class (self s) = Observed_Variational_Node ->
                invoke 1 getExpectation s = Raise RecursionError).
Proof.
  split; [|split].
  - intros d m s.
    destruct (decide (m = update)) as [->|Hu].
    { rewrite !invoke_update. reflexivity. }
    destruct (decide (m = getExpectation
                      /\ node_class (self s) = Observed_Variational_Node))
      as [[-> Hc]|Ho].
    + rewrite !invoke_S, Hc.
      cbn [resolve mro ancestors parent find_method methods].
      rewrite !bind_run. unfold emit. cbn [self trace].
      unfold Observed_Variational_Node_getExpectation.
      apply invoke_leaf; [discriminate|]. intros [[=] _].
    + rewrite (invoke_leaf (S d) m s Hu Ho), (invoke_leaf 1 m s Hu Ho). reflexivity.
  - intros s. rewrite invoke_S, resolve_update. reflexivity.
  - intros s Hc. rewrite invoke_S, Hc. reflexivity.
Qed.

End Properties.

(** * The properties on concrete nodes *)

#[local] Existing Instance Q_Scalar.
#[local] Existing Instance stub_Distributions.

Lemma stub_is_pure_recomputation : pure_recomputation.
Proof.
  exists (fun c _ params => Ok (stub_moments c params)).
  intros d. reflexivity.
Qed.

Lemma stub_keeps_parameters (x x' : Distribution) :
  Distribution_updateExpectations x = Ok x' -> dist_params x' = dist_params x.
Proof. intros [= <-]. reflexivity. Qed.

Lemma gamma_example_Ok : gamma_example = Ok gamma_node.
Proof. vm_compute. reflexivity. Qed.

Lemma multivariate_example_Ok :
  multivariate_example = Ok (the_node multivariate_example).
Proof. vm_compute. reflexivity. Qed.

Lemma spike_slab_example_Ok :
  spike_slab_example (VFloat (1 # 2)) = Ok spike_slab_node.
Proof. vm_compute. reflexivity. Qed.

Lemma spike_slab_node_Q :
  node_attrs spike_slab_node !! "Q" = Some (ODist spike_slab_posterior).
Proof. vm_compute. reflexivity. Qed.

Lemma spike_slab_posterior_ESW :
  dist_fields spike_slab_posterior !! "ESW" = Some (VSeq [3 # 4; 3 # 4; 3 # 4]).
Proof. vm_compute. reflexivity. Qed.

Lemma spike_slab_posterior_E :
  dist_fields spike_slab_posterior !! "E" = Some example_qmean.
Proof. vm_compute. reflexivity. Qed.

Lemma gamma_update_returns :
  invoke 2 update (fresh gamma_node) = Ok (None_, gamma_updated).
Proof. vm_compute. reflexivity. Qed.

Lemma gamma_updateExpectations_returns :
  invoke 1 updateExpectations (fresh gamma_node) = Ok (None_, gamma_refreshed).
Proof. vm_compute. reflexivity. Qed.

Lemma gamma_node_Q :
  node_attrs gamma_node !! "Q" = Some (ODist gamma_posterior).
Proof. vm_compute. reflexivity. Qed.

Lemma gamma_posterior_parameters :
  {[ "a"; "b" ]} ⊆ dom (dist_fields gamma_posterior).
Proof. refine (bool_decide_unpack _ _). vm_compute. exact I. Qed.

Lemma gamma_posterior_moments :
  {[ "E"; "lnE" ]} ⊆ dom (dist_fields gamma_posterior).
Proof. refine (bool_decide_unpack _ _). vm_compute. exact I. Qed.

(** Against C5 as stated: the multivariate Gaussian node comes out of its
    constructor with [P] bound to [None]; it holds no prior
    distribution. *)
Lemma MultivariateGaussian_node_has_no_prior :
  multivariate_example = Ok (the_node multivariate_example)
  /\ holds (the_node multivariate_example) "P" (OVal VNone)
  /\ forall p, ~ holds (the_node multivariate_example) "P" (ODist p).
Proof.
  split; [apply multivariate_example_Ok|].
  assert (holds (the_node multivariate_example) "P" (OVal VNone)) as H.
  { vm_compute. reflexivity. }
  split; [exact H|]. intros p Hp. unfold holds in *. rewrite H in Hp. discriminate.
Qed.

(** Against C1 as stated: with [dim = (2, 3)], the sequence [[0.5]] has a
    length other than 3, and yet the construction returns a node, with
    [0.5] stretched to three entries. *)
Lemma length_one_ptheta_is_not_rejected :
  length [1 # 2] <> 3%nat
  /\ spike_slab_example (VSeq [1 # 2])
     = Ok (the_node (spike_slab_example (VSeq [1 # 2])))
  /\ holds (the_node (spike_slab_example (VSeq [1 # 2]))) "P_theta"
       (OVal (VSeq [1 # 2; 1 # 2; 1 # 2])).
Proof.
  split; [discriminate|]. split; vm_compute; reflexivity.
Qed.

(** C1 at [dim = (2, 3)]: the float [0.5] becomes three entries [0.5];
    a sequence of length two is refused. *)
Lemma BernoulliGaussian_init_P_theta_witness :
  (exists n,
     spike_slab_example (VFloat (1 # 2)) = Ok n
     /\ holds n "P_theta" (OVal (VSeq [1 # 2; 1 # 2; 1 # 2])))
  /\ spike_slab_example (VSeq [1 # 2; 1 # 3])
     = Raise (AssertionError "ptheta dimension mismatch").
Proof.
  destruct (BernoulliGaussian_init_P_theta 2 3
              example_qmean example_qvar example_qtheta)
    as (Hfloat & _ & Hseq).
  split.
  - eapply (Hfloat (1 # 2)). reflexivity.
  - apply Hseq; discriminate.
Defined.


Lemma gamma_node_unobserved :
  unobserved (node_class (self (fresh gamma_node))) = true.
Proof. vm_compute. reflexivity. Qed.

Lemma gamma_update_first_moments :
  first_moment gamma_node = Some (VSeq [7; 7; 7; 7; 7]%Q)
  /\ first_moment (self gamma_updated) = Some (VSeq [2; 2; 2; 2; 2]%Q).
Proof. split; vm_compute; reflexivity. Qed.

(** C2 on the Gamma example: [update()] returns [None], enters the three
    methods in order, keeps [P], and leaves in [Q] what
    [updateExpectations()] made of the posterior: the seeded first moment
    [7] has become [a / b = 2]. *)
Lemma update_witness :
  invoke 2 update (fresh gamma_node) = Ok (None_, gamma_updated)
  /\ node_class (self gamma_updated) = node_class gamma_node
  /\ node_attrs (self gamma_updated) !! "P" = node_attrs gamma_node !! "P"
  /\ (exists c rest,
       resolve (node_class gamma_node) updateExpectations = Some c
       /\ trace gamma_updated =
            Enter Variational_Node update
            :: Enter Variational_Node updateParameters
            :: Enter c.1 updateExpectations :: rest)
  /\ (exists q',
       Distribution_updateExpectations gamma_posterior = Ok q'
       /\ self gamma_updated = set_attr gamma_node "Q" (ODist q')
       /\ trace gamma_updated =
            [Enter Variational_Node update;
             Enter Variational_Node updateParameters;
             Enter Unobserved_Variational_Node updateExpectations;
             DistUpdate gamma_posterior])
  /\ first_moment gamma_node = Some (VSeq [7; 7; 7; 7; 7]%Q)
  /\ first_moment (self gamma_updated) = Some (VSeq [2; 2; 2; 2; 2]%Q).
Proof.
  split; [exact gamma_update_returns|].
  destruct (proj1 (proj2 (update_runs_updateParameters_then_updateExpectations
                            0 (fresh gamma_node)))
              None_ gamma_updated gamma_update_returns)
    as (_ & Hc & Ha & (c & rest & Hres & Ht) & Hun & _).
  split; [exact Hc|]. split; [apply Ha; discriminate|].
  split; [exists c, rest; split; [exact Hres|exact Ht]|].
  split; [|split; [exact (proj1 gamma_update_first_moments)
                  |exact (proj2 gamma_update_first_moments)]].
  destruct (Hun gamma_node_unobserved) as (q & q' & HQ & Hq & Hself & Htr).
  assert (q = gamma_posterior) as ->.
  { pose proof gamma_node_Q as HQ'. cbn [fresh self] in HQ.
    rewrite HQ' in HQ. injection HQ as <-. reflexivity. }
  exists q'. split; [exact Hq|]. split; [exact Hself|exact Htr].
Defined.

(** C9 on the Gamma example, whose stand-in distribution keeps its
    parameters. *)
Lemma update_is_updateExpectations_witness :
  observe (invoke 2 update (fresh gamma_node))
  = observe (invoke 2 updateExpectations (fresh gamma_node))
  /\ exists q', node_attrs (self gamma_updated) !! "Q" = Some (ODist q')
                /\ dist_params q' = dist_params gamma_posterior.
Proof.
  destruct update_is_updateExpectations as (_ & _ & Hsame & Hq).
  split; [apply Hsame|].
  destruct (Hq 0%nat (fresh gamma_node) None_ gamma_updated gamma_posterior
              gamma_update_returns gamma_node_Q)
    as (q' & HQ' & _ & Hp).
  exists q'. split; [exact HQ'|]. apply Hp. exact stub_keeps_parameters.
Defined.

Lemma gamma_first_moments :
  first_moment gamma_node = Some (VSeq [7; 7; 7; 7; 7]%Q)
  /\ first_moment (self gamma_refreshed) = Some (VSeq [2; 2; 2; 2; 2]%Q).
Proof. split; vm_compute; reflexivity. Qed.

(** C8 on the Gamma example: the first call replaces the seeded moment,
    the second changes nothing. *)
Lemma updateExpectations_twice_witness :
  invoke 1 updateExpectations (fresh gamma_node) = Ok (None_, gamma_refreshed)
  /\ first_moment gamma_node = Some (VSeq [7; 7; 7; 7; 7]%Q)
  /\ first_moment (self gamma_refreshed) = Some (VSeq [2; 2; 2; 2; 2]%Q)
  /\ exists s2,
       invoke 1 updateExpectations gamma_refreshed = Ok (None_, s2)
       /\ self s2 = self gamma_refreshed
       /\ Q_moments (self s2) = Q_moments (self gamma_refreshed).
Proof.
  split; [exact gamma_updateExpectations_returns|].
  split; [exact (proj1 gamma_first_moments)|].
  split; [exact (proj2 gamma_first_moments)|].
  exact (updateExpectations_twice_same_moments stub_is_pure_recomputation
           0 (fresh gamma_node) None_ gamma_refreshed
           gamma_updateExpectations_returns).
Defined.

(** C5 on the examples: the Gamma node holds a prior and a posterior,
    the multivariate Gaussian node a posterior only. *)
Lemma family_nodes_hold_Q_and_some_hold_P_witness :
  ((exists p, holds gamma_node "P" (ODist p))
   /\ (exists q, holds gamma_node "Q" (ODist q)))
  /\ (holds (the_node multivariate_example) "P" None_
      /\ (exists q, holds (the_node multivariate_example) "Q" (ODist q))).
Proof.
  destruct family_nodes_hold_Q_and_some_hold_P as (_ & HG & _ & HM & _).
  split.
  - eapply HG. apply gamma_example_Ok.
  - eapply HM. apply multivariate_example_Ok.
Defined.

(** C6 on the Gamma example of dimension [(5,)]: the stand-in records the
    [dim] each distribution was made with, [(1,)] for the prior and
    [(5,)] for the posterior. *)
Lemma prior_dimensionality_witness :
  exists p q,
    holds gamma_node "P" (ODist p)
    /\ holds gamma_node "Q" (ODist q)
    /\ dist_dim p = [1%nat] /\ dist_dim q = [5%nat].
Proof.
  destruct prior_dimensionality_per_family as (HG & _ & _).
  destruct (proj1 (HG _ _ _ _ _ _) _ gamma_example_Ok)
    as (p & q & Hp & Hq & HP & HQ).
  exists p, q. split; [exact HP|]. split; [exact HQ|].
  injection Hp as <-. injection Hq as <-. split; reflexivity.
Defined.

(** C7 on the spike-and-slab example, where [Q.ESW] is [0.25 * 3] and
    [Q.E] is [3] in every entry: [getExpectation()] answers with the
    former. *)
Lemma BernoulliGaussian_getExpectation_witness :
  observe (invoke 1 getExpectation (fresh spike_slab_node))
  = Ok (OVal (VSeq [3 # 4; 3 # 4; 3 # 4]), spike_slab_node)
  /\ dist_fields spike_slab_posterior !! "E" = Some example_qmean.
Proof.
  split; [|exact spike_slab_posterior_E].
  destruct BernoulliGaussian_getExpectation_is_ESW as (_ & _ & H).
  destruct (H 0%nat (fresh spike_slab_node) spike_slab_posterior spike_slab_node_Q)
    as [HBG _].
  rewrite HBG by reflexivity.
  rewrite spike_slab_posterior_ESW. reflexivity.
Defined.

(** X1 on the Gamma example: [getParameters()] has the keys [a], [b]. *)
Lemma getParameters_keys_witness :
  exists m,
    observe (invoke 1 getParameters (fresh gamma_node)) = Ok (ODict m, gamma_node)
    /\ dom m = {[ "a"; "b" ]}.
Proof.
  refine (getParameters_keys 0 (fresh gamma_node) gamma_posterior
            eq_refl _ gamma_node_Q gamma_posterior_parameters).
  discriminate.
Defined.

(** X2 on the Gamma example: [getExpectations()] has the keys [E],
    [lnE]. *)
Lemma getExpectations_keys_witness :
  exists m,
    observe (invoke 1 getExpectations (fresh gamma_node)) = Ok (ODict m, gamma_node)
    /\ dom m = {[ "E"; "lnE" ]}.
Proof.
  refine (getExpectations_keys 0 (fresh gamma_node) gamma_posterior
            eq_refl _ gamma_node_Q gamma_posterior_moments).
  discriminate.
Defined.

(** ** The further properties on concrete nodes *)

Lemma gamma_getParameters_fields :
  dict_fields (node_class (self (fresh gamma_node))) getParameters = ["a"; "b"].
Proof. vm_compute. reflexivity. Qed.

Lemma gamma_getExpectations_fields :
  dict_fields (node_class (self (fresh gamma_node))) getExpectations = ["E"; "lnE"].
Proof. vm_compute. reflexivity. Qed.

Lemma gamma_posterior_has_a_b :
  Forall (fun k => is_Some (dist_fields gamma_posterior !! k)) ["a"; "b"].
Proof. repeat constructor; vm_compute; eexists; reflexivity. Qed.

Lemma gamma_without_b_raises :
  invoke 1 getParameters gamma_without_b = Raise (AttributeError "b").
Proof. vm_compute. reflexivity. Qed.

Lemma gamma_without_b_Q :
  exists q, node_attrs (self gamma_without_b) !! "Q" = Some (ODist q).
Proof. eexists. vm_compute. reflexivity. Qed.

(** X6 on the Gamma example: [update()] keeps the class and the prior. *)
Lemma methods_change_at_most_Q_witness :
  node_class (self gamma_updated) = node_class gamma_node
  /\ node_attrs (self gamma_updated) !! "P" = node_attrs gamma_node !! "P".
Proof.
  destruct (methods_change_at_most_Q 0 update (fresh gamma_node) gamma_updated None_
              gamma_update_returns) as (Hc & Ha & _).
  split; [exact Hc|]. apply Ha. discriminate.
Defined.

(** X9 on the Gamma example: [getParameters()] returns, its posterior
    having the fields [a] and [b]. *)
Lemma mapping_getters_read_Q_witness :
  exists r s', invoke 1 getParameters (fresh gamma_node) = Ok (r, s').
Proof.
  assert (dict_fields (node_class (self (fresh gamma_node))) getParameters <> [])
    as Hks by (rewrite gamma_getParameters_fields; discriminate).
  destruct (mapping_getters_read_Q 0 getParameters (fresh gamma_node) gamma_posterior
              Hks gamma_node_Q) as [[Hret _] _].
  apply Hret. rewrite gamma_getParameters_fields. exact gamma_posterior_has_a_b.
Defined.

(** X10 on a Gamma node whose posterior lacks [b]: the exception names a
    field the posterior does not have. *)
Lemma mapping_getters_first_missing_field_witness :
  exists q pre a post,
    node_attrs (self gamma_without_b) !! "Q" = Some (ODist q)
    /\ dict_fields (node_class (self gamma_without_b)) getParameters
       = pre ++ a :: post
    /\ dist_fields q !! a = None
    /\ AttributeError "b" = AttributeError a.
Proof.
  destruct gamma_without_b_Q as [q HQ].
  assert (dict_fields (node_class (self gamma_without_b)) getParameters <> [])
    as Hks by discriminate.
  destruct (mapping_getters_first_missing_field 0 getParameters gamma_without_b q
              (AttributeError "b") Hks HQ gamma_without_b_raises)
    as (pre & a & post & Hsplit & _ & Ha & He).
  exists q, pre, a, post. auto.
Defined.

(** X11 on the Gamma example: after [update()], [getExpectations()] reads
    the refreshed posterior. *)
Lemma update_then_mapping_getter_witness :
  exists q',
    Distribution_updateExpectations gamma_posterior = Ok q'
    /\ node_attrs (self gamma_updated) !! "Q" = Some (ODist q').
Proof.
  assert (dict_fields (node_class (self (fresh gamma_node))) getExpectations <> [])
    as Hks by (rewrite gamma_getExpectations_fields; discriminate).
  destruct (update_then_mapping_getter 0 0 getExpectations (fresh gamma_node)
              gamma_updated None_ gamma_posterior Hks gamma_node_Q gamma_update_returns)
    as (q' & Hq' & HQ' & _).
  exists q'. split; assumption.
Defined.

(** X12 on the Gamma example: a second [update()] changes nothing. *)
Lemma update_twice_same_node_witness :
  exists s2,
    invoke 2 update gamma_updated = Ok (None_, s2) /\ self s2 = self gamma_updated.
Proof.
  exact (update_twice_same_node stub_is_pure_recomputation 0 (fresh gamma_node)
           None_ gamma_updated gamma_update_returns).
Defined.

(** X14 at [dim = (2, 3)]: a prior of three entries is stored as it is. *)
Lemma BernoulliGaussian_init_keeps_matching_sequence_witness :
  exists n,
    spike_slab_example example_ptheta3 = Ok n
    /\ holds n "P_theta" (OVal example_ptheta3).
Proof.
  eapply (BernoulliGaussian_init_keeps_matching_sequence [2; 3]%nat 3
            example_qmean example_qvar example_qtheta);
    reflexivity.
Defined.
